(** * World GDP dashboard (app.py): data reshaping and growth metrics

    A shallow embedding of the computations of [app.py]:
    - [get_gdp_data] (lines 18-61): [pd.read_csv], the column selection,
      [DataFrame.melt] and [pd.to_numeric];
    - the sidebar and the chart (lines 72-114): the slider bounds, the
      options of the country selection, the filtered frame and the choice
      between the warning and the chart;
    - the metrics loop (lines 120-151): the per-country lookup through
      [.iat[0]] guarded by [try/except IndexError], the division by [1e9],
      the growth test and the arguments handed to [st.metric].

    Numbers are IEEE 754 doubles, as in Python and numpy: the kernel's
    binary64 floats, with their rounding, their infinities and their NaN.
    A pandas cell is the missing marker [NaN], a float or a string. *)

From Stdlib Require Import List String Ascii Bool Arith ZArith Lia.
From Stdlib Require Import DecimalString DecimalZ DecimalPos Sorted.
From Stdlib Require Import Floats Uint63.
Import ListNotations.

Local Open Scope list_scope.

(** ** Python: exceptions, [str] of an int, [range] *)

Module Py.

(** The exceptions the script can meet. [KeyError] carries the labels that
    were not found, as pandas reports them. *)
Inductive exn : Type :=
| EmptyDataError
| ParserError
| KeyError (missing : list string)
| ValueError
| IndexError
| TypeError.

Inductive result (A : Type) : Type :=
| Ok (a : A)
| Raise (e : exn).
Arguments Ok {A} a.
Arguments Raise {A} e.

Definition bind {A B} (m : result A) (k : A -> result B) : result B :=
  match m with
  | Ok a => k a
  | Raise e => Raise e
  end.

(** [try: body except IndexError: handler] *)
Definition try_except_IndexError {A} (body : result A) (handler : A)
  : result A :=
  match body with
  | Raise IndexError => Ok handler
  | r => r
  end.

(** A loop body run over a list, stopping at the first exception. *)
Fixpoint for_each {A B} (body : A -> result B) (xs : list A)
  : result (list B) :=
  match xs with
  | [] => Ok []
  | x :: xs' =>
      bind (body x) (fun y =>
      bind (for_each body xs') (fun ys => Ok (y :: ys)))
  end.

(** [enumerate(xs)] *)
Definition enumerate {A} (xs : list A) : list (nat * A) :=
  combine (seq 0 (List.length xs)) xs.

(** [str(y)] for an int [y] *)
Definition str (y : Z) : string := NilZero.string_of_int (Z.to_int y).

(** [range(a, b)] *)
Definition range (a b : Z) : list Z :=
  map (fun k => (a + Z.of_nat k)%Z) (seq 0 (Z.to_nat (b - a))).

(** Python floats are IEEE 754 doubles. *)
Definition float : Type := PrimFloat.float.

(** [float('nan')] *)
Definition nan : float := PrimFloat.nan.

(** [math.isnan] *)
Definition isnan (x : float) : bool := PrimFloat.is_nan x.

(** [x == 0]: true of both zeros, false of NaN. *)
Definition eq_zero (x : float) : bool := PrimFloat.eqb x PrimFloat.zero.

(** [a / b] on floats whose divisor is not zero, and on numpy floats
    whatever the divisor (a zero divisor gives an infinity or NaN there,
    and no exception). *)
Definition truediv (a b : float) : float := PrimFloat.div a b.

End Py.
Import Py.

Notation "x <- m ;; k" := (Py.bind m (fun x => k))
  (at level 61, m at next level, right associativity).

(** ** pandas: cells, frames, [read_csv], column selection, [melt] *)

Module Pd.

(** One cell of a frame read from a CSV file. *)
Inductive cell : Type :=
| NaN
| Num (x : float)
| Str (s : string).

(** [cell == s] for a Python string [s]: only a string cell can be equal. *)
Definition eq_str (c : cell) (s : string) : bool :=
  match c with Str t => String.eqb t s | _ => false end.

(** [cell / d] for a float constant [d]. *)
Definition div (c : cell) (d : float) : result float :=
  match c with
  | NaN => Ok nan
  | Num x => Ok (truediv x d)
  | Str _ => Raise TypeError
  end.

(** A frame: its column labels and its rows. *)
Record DataFrame : Type := {
  columns : list string;
  rows : list (list cell)
}.

Fixpoint index_of (c : string) (cols : list string) : option nat :=
  match cols with
  | [] => None
  | c' :: cols' =>
      if String.eqb c c' then Some O else option_map S (index_of c cols')
  end.

(** The cell of row [r] under label [c]; pandas pads short rows with NaN. *)
Definition at_label (cols : list string) (r : list cell) (c : string)
  : cell :=
  match index_of c cols with
  | Some j => nth j r NaN
  | None => NaN
  end.

(** [df[labels]]: every label must be a column, else [KeyError]. *)
Definition getitem (df : DataFrame) (labels : list string)
  : result DataFrame :=
  match filter (fun c => negb (existsb (String.eqb c) (columns df))) labels
  with
  | [] =>
      Ok {| columns := labels;
            rows := map (fun r => map (at_label (columns df) r) labels)
                        (rows df) |}
  | missing => Raise (KeyError missing)
  end.

(** [.iat[0]] of a series. *)
Definition iat0 {A} (s : list A) : result A :=
  match s with
  | [] => Raise IndexError
  | x :: _ => Ok x
  end.

(** [pd.to_numeric] of one integer label. *)
Definition to_numeric (s : string) : result Z :=
  match NilZero.int_of_string s with
  | Some d => Ok (Z.of_int d)
  | None => Raise ValueError
  end.

Section ReadCsv.

(** pandas' own parser of a numeric token and its built-in list of
    tokens read as missing belong to the library. *)
Variable to_number : string -> option float.
Variable default_na : list string.

Definition is_na (na_values : list string) (tok : string) : bool :=
  existsb (String.eqb tok) (na_values ++ default_na).

(** The fields at position [j] of the records are numeric when each of
    them is missing or a number; otherwise the column keeps its tokens as
    strings. *)
Definition numeric_column (na_values : list string)
    (recs : list (list string)) (j : nat) : bool :=
  forallb (fun r =>
             match nth_error r j with
             | None => true
             | Some tok =>
                 is_na na_values tok ||
                 match to_number tok with Some _ => true | None => false end
             end) recs.

Definition parse_cell (na_values : list string) (numeric : bool)
    (tok : string) : cell :=
  if is_na na_values tok then NaN
  else if numeric then
         match to_number tok with Some x => Num x | None => Str tok end
       else Str tok.

(** The width of the table: the tokenizer takes the first record as it
    comes and pads it to the header; every later record is held against
    the width reached so far. *)
Definition table_width (hdr : list string) (recs : list (list string))
  : nat :=
  match recs with
  | [] => List.length hdr
  | r :: _ => Nat.max (List.length hdr) (List.length r)
  end.

(** The fields that a first record has beyond the header become the index
    of the frame, and the labels of the header name the fields after
    them. *)
Definition leading_cols (hdr : list string) (recs : list (list string))
  : nat :=
  table_width hdr recs - List.length hdr.

(** The cells of one record under the labels of the header; a record that
    ends early is padded with NaN. *)
Definition parse_row (na_values : list string)
    (recs : list (list string)) (lead width : nat) (r : list string)
  : list cell :=
  map (fun j =>
         match nth_error r (lead + j) with
         | None => NaN
         | Some tok =>
             parse_cell na_values (numeric_column na_values recs (lead + j))
                        tok
         end) (seq 0 width).

(** [pd.read_csv(f, skiprows=n, na_values=...)] on a file given as its
    lines, each split into fields; the blank lines that follow the skipped
    ones, which pandas drops, are not listed. A record after the first
    with more fields than the table is wide raises [ParserError]. *)
Definition read_csv (lines : list (list string)) (skiprows : nat)
    (na_values : list string) : result DataFrame :=
  match skipn skiprows lines with
  | [] => Raise EmptyDataError
  | hdr :: recs =>
      if existsb (fun r => (table_width hdr recs <? List.length r)%nat)
                 (tl recs)
      then Raise ParserError
      else
        Ok {| columns := hdr;
              rows := map (parse_row na_values recs (leading_cols hdr recs)
                                     (List.length hdr)) recs |}
  end.

End ReadCsv.

End Pd.
Import Pd.

(** ** app.py *)

(** A row of the long table: Country Name, Country Code, Year, GDP. The
    year is a label ([string]) after [melt] and an integer after
    [pd.to_numeric]. *)
Record LongRow (Y : Type) : Type := {
  Country_Name : cell;
  Country_Code : cell;
  Year : Y;
  GDP : cell
}.
Arguments Country_Name {Y} _.
Arguments Country_Code {Y} _.
Arguments Year {Y} _.
Arguments GDP {Y} _.

(** [df.melt(id_vars=['Country Name', 'Country Code'], value_vars=...,
    var_name='Year', value_name='GDP')]: the value columns one after the
    other, each over all the rows. *)
Definition melt (df : DataFrame) (value_vars : list string)
  : list (LongRow string) :=
  flat_map (fun v =>
    map (fun r =>
           {| Country_Name := at_label (columns df) r "Country Name";
              Country_Code := at_label (columns df) r "Country Code";
              Year := v;
              GDP := at_label (columns df) r v |})
        (rows df))
    value_vars.

(** [gdp_df['Year'] = pd.to_numeric(gdp_df['Year'])] *)
Definition year_to_numeric (r : LongRow string) : result (LongRow Z) :=
  y <- to_numeric (Year r) ;;
  Ok {| Country_Name := Country_Name r;
        Country_Code := Country_Code r;
        Year := y;
        GDP := GDP r |}.

(** [get_gdp_data] fixes its two bounds as local constants; the section
    takes them as variables, so that what is proved holds for every range,
    and [get_gdp_data] below is the instance at 1960 and 2024. *)
Section GetGdpData.

Variable MIN_YEAR MAX_YEAR : Z.

Definition year_cols : list string :=
  map str (range MIN_YEAR (MAX_YEAR + 1)).

Definition required_columns : list string :=
  ["Country Name"; "Country Code"]%string ++ year_cols.

(** Lines 26-61 of [get_gdp_data]: from the frame read to the long table. *)
Definition reshape (raw_gdp_df : DataFrame) : result (list (LongRow Z)) :=
  raw_gdp_df <- getitem raw_gdp_df required_columns ;;
  let gdp_df := melt raw_gdp_df year_cols in
  for_each year_to_numeric gdp_df.

Variable to_number : string -> option float.
Variable default_na : list string.

Definition get_gdp_data_between (world_gdp_csv : list (list string))
  : result (list (LongRow Z)) :=
  raw_gdp_df <-
    read_csv to_number default_na world_gdp_csv 4 [".."%string] ;;
  reshape raw_gdp_df.

End GetGdpData.

Definition MIN_YEAR : Z := 1960.
Definition MAX_YEAR : Z := 2024.

Definition get_gdp_data := get_gdp_data_between MIN_YEAR MAX_YEAR.

(** [gdp_df[gdp_df['Year'] == y]] *)
Definition year_is (gdp_df : list (LongRow Z)) (y : Z) : list (LongRow Z) :=
  filter (fun r => (Year r =? y)%Z) gdp_df.

(** [df[df['Country Code'] == country]] *)
Definition code_is (df : list (LongRow Z)) (country : string)
  : list (LongRow Z) :=
  filter (fun r => eq_str (Country_Code r) country) df.

(** [df[df['Country Code'] == country]['GDP'].iat[0]] *)
Definition gdp_iat0 (df : list (LongRow Z)) (country : string) : result cell :=
  iat0 (map GDP (code_is df country)).

(** What the loop hands to [st.metric]. *)
Inductive text : Type :=
| n_a                      (* 'n/a' *)
| fmt_2f_x (v : float)     (* f"{v:,.2f}x" *)
| fmt_0f_B (v : float).    (* f"{v:,.0f}B" *)

Inductive color : Type := off | normal.

Record metric : Type := {
  label : string;
  value : text;
  delta : text;
  delta_color : color
}.

(** [1e9] *)
Definition billion : float := 1e9%float.

(** [... .iat[0] / 1e9], with [float('nan')] on [IndexError]. *)
Definition gdp_in_billions (df : list (LongRow Z)) (country : string)
  : result float :=
  try_except_IndexError
    (v <- gdp_iat0 df country ;; div v billion)
    nan.

(** The body of the loop, lines 128-151. *)
Definition country_metric (first_year_df last_year_df : list (LongRow Z))
    (country : string) : result metric :=
  first_gdp <- gdp_in_billions first_year_df country ;;
  last_gdp <- gdp_in_billions last_year_df country ;;
  let '(growth, dcolor) :=
    if isnan first_gdp || eq_zero first_gdp then (n_a, off)
    else (fmt_2f_x (truediv last_gdp first_gdp), normal) in
  Ok {| label := String.append country " GDP";
        value := if negb (isnan last_gdp) then fmt_0f_B last_gdp else n_a;
        delta := growth;
        delta_color := dcolor |}.

(** Lines 120-151: the metrics of the selected countries, each with the
    index [i % 4] of the column it is drawn in. *)
Definition compute_metrics (gdp_df : list (LongRow Z))
    (selected_countries : list string) (from_year to_year : Z)
  : result (list (nat * metric)) :=
  let first_year_df := year_is gdp_df from_year in
  let last_year_df := year_is gdp_df to_year in
  for_each (fun '(i, country) =>
              m <- country_metric first_year_df last_year_df country ;;
              Ok (i mod 4, m))
           (enumerate selected_countries).

(** ** app.py: the sidebar and the chart *)

(** [int(s.min())] of a series of integers: the minimum of an empty
    series is NaN, and [int] of a NaN raises [ValueError]. *)
Definition int_min (s : list Z) : result Z :=
  match s with
  | [] => Raise ValueError
  | y :: ys => Ok (fold_left Z.min ys y)
  end.

(** [int(s.max())] *)
Definition int_max (s : list Z) : result Z :=
  match s with
  | [] => Raise ValueError
  | y :: ys => Ok (fold_left Z.max ys y)
  end.

(** Lines 72-73: the bounds handed to the slider. *)
Definition slider_bounds (gdp_df : list (LongRow Z)) : result (Z * Z) :=
  min_year <- int_min (map Year gdp_df) ;;
  max_year <- int_max (map Year gdp_df) ;;
  Ok (min_year, max_year).

(** A cell that holds a NaN: the missing marker, or a float that is one. *)
Definition cell_isnan (c : cell) : bool :=
  match c with
  | NaN => true
  | Num x => PrimFloat.is_nan x
  | Str _ => false
  end.

(** Two cells that [unique] takes for one value: equal floats, equal
    strings, and all the NaN are one. *)
Definition same_cell (a b : cell) : bool :=
  (cell_isnan a && cell_isnan b)
  || match a, b with
     | Num p, Num q => PrimFloat.eqb p q
     | Str s, Str t => String.eqb s t
     | _, _ => false
     end.

(** [Series.unique()]: the values in the order they first appear, [seen]
    holding the ones met so far. *)
Fixpoint unique_from (seen : list cell) (s : list cell) : list cell :=
  match s with
  | [] => []
  | c :: s' =>
      if existsb (same_cell c) seen then unique_from seen s'
      else c :: unique_from (c :: seen) s'
  end.

Definition unique (s : list cell) : list cell := unique_from [] s.

(** Line 82: the options of the country selection. *)
Definition countries (gdp_df : list (LongRow Z)) : list cell :=
  unique (map Country_Code gdp_df).





(** ** Reference points for the statements *)

(** The long row that the wide row [r] gives for the year [y]. *)
Definition long_row (cols : list string) (r : list cell) (y : Z)
  : LongRow Z :=
  {| Country_Name := at_label cols r "Country Name";
     Country_Code := at_label cols r "Country Code";
     Year := y;
     GDP := at_label cols r (str y) |}.

(** The long table of a frame: year after year, each over all the rows. *)
Definition long_table (lo hi : Z) (df : DataFrame) : list (LongRow Z) :=
  flat_map (fun y => map (fun r => long_row (columns df) r y) (rows df))
           (range lo (hi + 1)).

(** The key of a long row. *)
Definition key (r : LongRow Z) : cell * Z := (Country_Code r, Year r).

(** The row of a country in a year. *)
Definition is_row (y : Z) (country : string) (r : LongRow Z) : bool :=
  (Year r =? y)%Z && eq_str (Country_Code r) country.

(** [x] is the first row of [df] for the year [y] and the code
    [country]. *)
Definition first_row (df : list (LongRow Z)) (y : Z) (country : string)
    (x : LongRow Z) : Prop :=
  exists pre post,
    df = pre ++ x :: post /\
    (forall p, In p pre -> ~ (Year p = y /\ Country_Code p = Str country)) /\
    Year x = y /\ Country_Code x = Str country.


(** The rows that the metrics of a selection can read: a selected code,
    in the first or in the last year. *)
Definition read_by_metrics (sel : list string) (from_year to_year : Z)
    (r : LongRow Z) : bool :=
  match Country_Code r with
  | Str c => existsb (String.eqb c) sel
  | _ => false
  end
  && ((Year r =? from_year)%Z || (Year r =? to_year)%Z).

(** No string in the GDP column. *)
Definition numeric_GDP (df : list (LongRow Z)) : bool :=
  forallb (fun r => match GDP r with Str _ => false | _ => true end) df.

(** ** Sample data *)

Definition row (name code : string) (y : Z) (v : cell) : LongRow Z :=
  {| Country_Name := Str name; Country_Code := Str code;
     Year := y; GDP := v |}.

(** Germany with a figure for 2020 and none for 2021. *)
Definition DEU_end_missing : list (LongRow Z) :=
  [ row "Germany" "DEU" 2020 (Num 3000000000000%float);
    row "Germany" "DEU" 2021 NaN ].

(** Two rows for (DEU, 2020). *)
Definition DEU_duplicated : list (LongRow Z) :=
  [ row "Germany" "DEU" 2020 (Num 10%float);
    row "Germany" "DEU" 2020 (Num 20%float);
    row "Germany" "DEU" 2021 (Num 25%float) ].

Definition DEU_10_25 : list (LongRow Z) :=
  [ row "Germany" "DEU" 2020 (Num 10%float);
    row "Germany" "DEU" 2021 (Num 25%float) ].

(** A reader of the tokens that are unsigned integers, standing for
    pandas' number parser. *)
Definition int_token (s : string) : option float :=
  match NilZero.int_of_string s with
  | Some (Decimal.Pos d) =>
      Some (PrimFloat.of_uint63 (Uint63.of_Z (Z.of_int (Decimal.Pos d))))
  | _ => None
  end.

(** A file in the World Bank layout: four lines before the header. *)
Definition sample_header : list string :=
  ["Country Name"; "Country Code"; "Indicator Name"; "2020"; "2021"]%string.

Definition sample_DEU : list string :=
  ["Germany"; "DEU"; "GDP (current US$)"; "3000"; ".."]%string.

Definition sample_FRA : list string :=
  ["France"; "FRA"; "GDP (current US$)"; ""; "2500"]%string.

Definition sample_csv : list (list string) :=
  [ ["Data Source"; "World Development Indicators"]; [];
    ["Last Updated Date"; "2025-01-01"]; [];
    sample_header; sample_DEU; sample_FRA ]%string.

Definition sample_frame : DataFrame :=
  {| columns := ["Country Name"; "Country Code"; "2020"; "2021"]%string;
     rows := [ [Str "Germany"; Str "DEU"; Num 3000%float; NaN];
               [Str "France"; Str "FRA"; NaN; Num 2500%float] ] |}.

(** The same rows with the columns in another order and one more column. *)
Definition sample_frame_indicator : DataFrame :=
  {| columns := ["Country Code"; "Indicator Name"; "Country Name";
                 "2021"; "2020"]%string;
     rows := [ [Str "DEU"; Str "GDP (current US$)"; Str "Germany";
                NaN; Num 3000%float];
               [Str "FRA"; Str "GDP (current US$)"; Str "France";
                Num 2500%float; NaN] ] |}.

(** The same frame without its column for 2021. *)
Definition sample_frame_2020 : DataFrame :=
  {| columns := ["Country Name"; "Country Code"; "2020"]%string;
     rows := [ [Str "Germany"; Str "DEU"; Num 3000%float];
               [Str "France"; Str "FRA"; NaN] ] |}.

(** A file with its header and no record. *)
Definition header_only_csv : list (list string) :=
  [ ["Data Source"; "World Development Indicators"]; [];
    ["Last Updated Date"; "2025-01-01"]; [];
    sample_header ]%string.

(** France without a figure for 2020, Germany with 10 and 25. *)
Definition wide_FRA_DEU : DataFrame :=
  {| columns := ["Country Name"; "Country Code"; "2020"; "2021"]%string;
     rows := [ [Str "France"; Str "FRA"; NaN; Num 2500%float];
               [Str "Germany"; Str "DEU"; Num 10%float; Num 25%float] ] |}.

(** Germany with a zero for 2020. *)
Definition DEU_zero_start : list (LongRow Z) :=
  [ row "Germany" "DEU" 2020 (Num 0%float);
    row "Germany" "DEU" 2021 (Num 25%float) ].




(** Every label is one of the columns. *)
Definition has_columns (cols labels : list string) : bool :=
  forallb (fun c => existsb (String.eqb c) cols) labels.

(** * Properties *)

(** ** Python and pandas helpers *)

Lemma to_numeric_str (y : Z) : to_numeric (str y) = Ok y.
Proof.
  unfold to_numeric, str.
  rewrite NilZero.isi.
  - now rewrite DecimalZ.of_to.
  - destruct y; simpl; try discriminate.
    intros [= H]. now apply Unsigned.to_uint_nonnil in H.
  - destruct y; simpl; try discriminate.
    intros [= H]. now apply Unsigned.to_uint_nonnil in H.
Qed.

Lemma range_length (a b : Z) : List.length (range a b) = Z.to_nat (b - a).
Proof. unfold range. now rewrite length_map, length_seq. Qed.

Lemma range_In (a b y : Z) : In y (range a b) <-> (a <= y < b)%Z.
Proof.
  unfold range. rewrite in_map_iff. split.
  - intros (k & <- & Hk). apply in_seq in Hk. lia.
  - intros H. exists (Z.to_nat (y - a)). split; [lia|].
    apply in_seq. lia.
Qed.

Lemma range_nth_error (a b y : Z) :
  (a <= y < b)%Z -> nth_error (range a b) (Z.to_nat (y - a)) = Some y.
Proof.
  intros H. unfold range.
  rewrite nth_error_map, nth_error_seq.
  destruct (Nat.ltb_spec (Z.to_nat (y - a)) (Z.to_nat (b - a))); [|lia].
  simpl. f_equal. lia.
Qed.

Lemma for_each_map_inv {A B} (body : A -> result B) (h : B -> A)
    (ys : list B) :
  (forall y, In y ys -> body (h y) = Ok y) ->
  for_each body (map h ys) = Ok ys.
Proof.
  induction ys as [|y ys IH]; intros H; simpl; [reflexivity|].
  rewrite H by now left. simpl.
  rewrite IH by (intros; apply H; now right). reflexivity.
Qed.

Lemma filter_nil_iff {A} (f : A -> bool) (l : list A) :
  filter f l = [] <-> forall x, In x l -> f x = false.
Proof.
  induction l as [|a l IH]; simpl.
  - split; [intros _ x []|reflexivity].
  - destruct (f a) eqn:E; split.
    + discriminate.
    + intros H. specialize (H a (or_introl eq_refl)). congruence.
    + intros H x [<-|Hx]; [assumption|]. now apply IH.
    + intros H. apply IH. intros x Hx. apply H. now right.
Qed.

Lemma existsb_eqb_In (c : string) (cols : list string) :
  existsb (String.eqb c) cols = true <-> In c cols.
Proof.
  rewrite existsb_exists. split.
  - intros (x & Hx & E). apply String.eqb_eq in E. now subst.
  - intros H. exists c. split; [assumption|apply String.eqb_refl].
Qed.

(** [getitem] succeeds exactly when every label is a column. *)
Lemma getitem_ok (df : DataFrame) (labels : list string) :
  (forall c, In c labels -> In c (columns df)) ->
  getitem df labels =
    Ok {| columns := labels;
          rows := map (fun r => map (at_label (columns df) r) labels)
                      (rows df) |}.
Proof.
  intros H. unfold getitem.
  replace (filter _ labels) with (@nil string); [reflexivity|].
  symmetry. apply filter_nil_iff. intros c Hc.
  apply negb_false_iff, existsb_eqb_In. now apply H.
Qed.

Lemma getitem_KeyError (df : DataFrame) (labels : list string) (c : string) :
  In c labels -> ~ In c (columns df) ->
  exists missing,
    getitem df labels = Raise (KeyError missing) /\ In c missing.
Proof.
  intros Hc Hn. unfold getitem.
  set (f := fun c => negb (existsb (String.eqb c) (columns df))).
  assert (Hin : In c (filter f labels)).
  { apply filter_In. split; [assumption|]. unfold f.
    apply negb_true_iff. destruct (existsb _ _) eqn:E; [|reflexivity].
    apply existsb_eqb_In in E. contradiction. }
  destruct (filter f labels) as [|m ms] eqn:E; [destruct Hin|].
  exists (m :: ms). now split.
Qed.

Lemma index_of_map (f : string -> cell) (labels : list string) (c : string) :
  In c labels ->
  exists j, index_of c labels = Some j /\ nth j (map f labels) NaN = f c.
Proof.
  induction labels as [|c' labels IH]; intros Hin; [destruct Hin|].
  simpl. destruct (String.eqb_spec c c') as [->|Hne].
  - exists O. now split.
  - destruct Hin as [E|Hin]; [congruence|].
    destruct (IH Hin) as (j & Hj & Hn).
    exists (S j). rewrite Hj. now split.
Qed.

Lemma at_label_map (f : string -> cell) (labels : list string) (c : string) :
  In c labels -> at_label labels (map f labels) c = f c.
Proof.
  intros Hin. unfold at_label.
  destruct (index_of_map f labels c Hin) as (j & -> & Hn). exact Hn.
Qed.

(** ** [reshape]: what it returns *)

Section Reshape.

Variables lo hi : Z.

Lemma year_to_numeric_str (r : LongRow Z) :
  year_to_numeric
    {| Country_Name := Country_Name r; Country_Code := Country_Code r;
       Year := str (Year r); GDP := GDP r |} = Ok r.
Proof.
  unfold year_to_numeric. simpl. rewrite to_numeric_str. simpl.
  now destruct r.
Qed.

Lemma required_names :
  In "Country Name"%string (required_columns lo hi) /\
  In "Country Code"%string (required_columns lo hi).
Proof. unfold required_columns. simpl. auto. Qed.

Lemma required_year (y : Z) :
  (lo <= y <= hi)%Z -> In (str y) (required_columns lo hi).
Proof.
  intros H. unfold required_columns, year_cols.
  apply in_or_app. right. apply in_map, range_In. lia.
Qed.

Lemma melt_getitem (labels cols : list string) (rs : list (list cell))
    (ys : list Z) :
  In "Country Name"%string labels -> In "Country Code"%string labels ->
  (forall y, In y ys -> In (str y) labels) ->
  melt {| columns := labels;
          rows := map (fun r => map (at_label cols r) labels) rs |}
       (map str ys)
  = map (fun r => {| Country_Name := Country_Name r;
                     Country_Code := Country_Code r;
                     Year := str (Year r); GDP := GDP r |})
        (flat_map (fun y => map (fun r => long_row cols r y) rs) ys).
Proof.
  intros Hname Hcode. unfold melt. simpl.
  induction ys as [|y ys IH]; intros Hys; simpl; [reflexivity|].
  rewrite map_app, IH by (intros; apply Hys; now right).
  f_equal. rewrite !map_map. apply map_ext. intros r.
  unfold long_row. simpl.
  rewrite !at_label_map; auto. apply Hys. now left.
Qed.

(** With its columns present, [reshape] returns the long table. *)
Lemma reshape_ok (raw : DataFrame) :
  (forall c, In c (required_columns lo hi) -> In c (columns raw)) ->
  reshape lo hi raw = Ok (long_table lo hi raw).
Proof.
  intros Hcols. unfold reshape.
  rewrite getitem_ok by assumption. cbn [bind].
  unfold year_cols. rewrite melt_getitem.
  - apply for_each_map_inv. intros r _. apply year_to_numeric_str.
  - apply required_names.
  - apply required_names.
  - intros y Hy. apply range_In in Hy. apply required_year. lia.
Qed.

Lemma reshape_KeyError (raw : DataFrame) (c : string) :
  In c (required_columns lo hi) -> ~ In c (columns raw) ->
  exists missing,
    reshape lo hi raw = Raise (KeyError missing) /\ In c missing.
Proof.
  intros Hc Hn. unfold reshape.
  destruct (getitem_KeyError raw _ c Hc Hn) as (missing & -> & Hin).
  now exists missing.
Qed.

End Reshape.

(** ** Blocks of a [flat_map] *)

Lemma length_flat_map_block {A B} (F : A -> list B) (n : nat) (ys : list A) :
  (forall y, List.length (F y) = n) ->
  List.length (flat_map F ys) = (List.length ys * n)%nat.
Proof.
  intros HF. induction ys as [|y ys IH]; simpl; [reflexivity|].
  now rewrite length_app, HF, IH.
Qed.

Lemma nth_error_flat_map_block {A B} (F : A -> list B) (n : nat)
    (ys : list A) (k i : nat) (y : A) :
  (forall y, List.length (F y) = n) ->
  nth_error ys k = Some y -> (i < n)%nat ->
  nth_error (flat_map F ys) (k * n + i) = nth_error (F y) i.
Proof.
  intros HF. revert k. induction ys as [|a ys IH]; intros k Hk Hi.
  - now destruct k.
  - destruct k as [|k]; simpl in Hk |- *.
    + injection Hk as ->. apply nth_error_app1. now rewrite HF.
    + rewrite nth_error_app2 by (rewrite HF; lia).
      rewrite HF. replace (n + k * n + i - n)%nat with (k * n + i)%nat by lia.
      now apply IH.
Qed.

Lemma long_table_length (lo hi : Z) (df : DataFrame) :
  List.length (long_table lo hi df)
  = (Z.to_nat (hi + 1 - lo) * List.length (rows df))%nat.
Proof.
  unfold long_table.
  rewrite (length_flat_map_block _ (List.length (rows df))).
  - now rewrite range_length.
  - intros y. apply length_map.
Qed.

Lemma long_table_nth_error (lo hi : Z) (df : DataFrame) (i : nat)
    (r : list cell) (y : Z) :
  nth_error (rows df) i = Some r -> (lo <= y <= hi)%Z ->
  nth_error (long_table lo hi df)
            (Z.to_nat (y - lo) * List.length (rows df) + i)
  = Some (long_row (columns df) r y).
Proof.
  intros Hr Hy. unfold long_table.
  rewrite (nth_error_flat_map_block _ (List.length (rows df)) _ _ _ y).
  - rewrite nth_error_map, Hr. reflexivity.
  - intros z. apply length_map.
  - apply range_nth_error. lia.
  - apply nth_error_Some. congruence.
Qed.

Lemma long_table_In (lo hi : Z) (df : DataFrame) (x : LongRow Z) :
  In x (long_table lo hi df) <->
  exists r y, In r (rows df) /\ (lo <= y <= hi)%Z /\
              x = long_row (columns df) r y.
Proof.
  unfold long_table. rewrite in_flat_map. split.
  - intros (y & Hy & Hx). apply in_map_iff in Hx as (r & <- & Hr).
    apply range_In in Hy. exists r, y. repeat split; auto; lia.
  - intros (r & y & Hr & Hy & ->). exists y. split.
    + apply range_In. lia.
    + apply in_map_iff. now exists r.
Qed.

Lemma index_of_lt (c : string) (cols : list string) (j : nat) :
  index_of c cols = Some j -> (j < List.length cols)%nat.
Proof.
  revert j. induction cols as [|c' cols IH]; intros j; simpl; [discriminate|].
  destruct (String.eqb c c').
  - intros [= <-]. lia.
  - destruct (index_of c cols) as [k|]; simpl; [|discriminate].
    intros [= <-]. specialize (IH k eq_refl). lia.
Qed.

Lemma nth_map_seq {A} (g : nat -> A) (w j : nat) (d : A) :
  (j < w)%nat -> nth j (map g (seq 0 w)) d = g j.
Proof.
  intros H.
  rewrite (nth_indep _ d (g O)) by now rewrite length_map, length_seq.
  rewrite (map_nth g), seq_nth by assumption. reflexivity.
Qed.

(** ** IEEE doubles *)

Lemma eq_zero_spec (x : float) :
  eq_zero x = true -> exists b, Prim2SF x = S754_zero b.
Proof.
  unfold eq_zero. rewrite FloatAxioms.eqb_spec.
  change (Prim2SF PrimFloat.zero) with (S754_zero false).
  destruct (Prim2SF x) as [b|b| |b m e]; simpl; try discriminate.
  - intros _. now exists b.
  - now destruct b.
  - now destruct b.
Qed.

(** A zero stays a zero when divided by [1e9]. *)
Lemma zero_in_billions (x : float) :
  eq_zero x = true -> eq_zero (truediv x billion) = true.
Proof.
  intros H. destruct (eq_zero_spec x H) as (b & Hb).
  unfold eq_zero, truediv. rewrite FloatAxioms.eqb_spec, FloatAxioms.div_spec, Hb.
  change (Prim2SF billion) with (S754_finite false 8388608000000000 (-23)).
  reflexivity.
Qed.

(** NaN divided by anything is NaN. *)
Lemma nan_truediv (x : float) : truediv nan x = nan.
Proof.
  rewrite <- (SF2Prim_Prim2SF (truediv nan x)).
  unfold truediv. rewrite FloatAxioms.div_spec.
  change (Prim2SF nan) with S754_nan. reflexivity.
Qed.

(** ** [read_csv] on a file whose records are no longer than its header *)

Lemma read_csv_ok (to_number : string -> option float)
    (default_na na_values : list string) (lines : list (list string))
    (skiprows : nat) (hdr : list string) (recs : list (list string)) :
  skipn skiprows lines = hdr :: recs ->
  Forall (fun r => (List.length r <= List.length hdr)%nat) recs ->
  read_csv to_number default_na lines skiprows na_values
  = Ok {| columns := hdr;
          rows := map (parse_row to_number default_na na_values recs 0
                                 (List.length hdr)) recs |}.
Proof.
  intros Hfile Hlen. unfold read_csv. rewrite Hfile.
  assert (Hw : table_width hdr recs = List.length hdr).
  { unfold table_width. destruct recs as [|r recs]; [reflexivity|].
    inversion_clear Hlen. lia. }
  unfold leading_cols. rewrite Hw, Nat.sub_diag.
  replace (existsb _ (tl recs)) with false; [reflexivity|].
  symmetry. apply not_true_is_false. intros H.
  apply existsb_exists in H as (r & Hr & Hlt).
  rewrite Forall_forall in Hlen.
  assert (Hin : In r recs) by (destruct recs; [destruct Hr|now right]).
  apply Hlen in Hin. apply Nat.ltb_lt in Hlt. lia.
Qed.

(** The cell that a record gives under a label of the header. *)
Lemma at_label_parse_row (to_number : string -> option float)
    (default_na na_values : list string) (recs : list (list string))
    (lead : nat) (hdr r : list string) (c : string) :
  at_label hdr
    (parse_row to_number default_na na_values recs lead (List.length hdr) r)
    c
  = match index_of c hdr with
    | Some j =>
        match nth_error r (lead + j) with
        | Some tok =>
            parse_cell to_number default_na na_values
              (numeric_column to_number default_na na_values recs (lead + j))
              tok
        | None => NaN
        end
    | None => NaN
    end.
Proof.
  unfold at_label. destruct (index_of c hdr) as [j|] eqn:Hj; [|reflexivity].
  apply index_of_lt in Hj. unfold parse_row. now rewrite nth_map_seq.
Qed.

(** A token listed in [na_values] is read as NaN, whatever its column. *)
Lemma parse_cell_na (to_number : string -> option float)
    (default_na na_values : list string) (numeric : bool) (tok : string) :
  In tok na_values ->
  parse_cell to_number default_na na_values numeric tok = NaN.
Proof.
  intros Hna. unfold parse_cell, is_na.
  replace (existsb _ _) with true; [reflexivity|].
  symmetry. apply existsb_eqb_In, in_or_app. now left.
Qed.


(** ** The claims on [reshape] *)

(** C4. Cardinality: with its columns present and [lo <= hi], [reshape]
    returns a long table of [|rows| * (hi - lo + 1)] rows, and the row
    of the wide row [i] and the year [y] sits at position
    [(y - lo) * |rows| + i]: one long row per (entity, year) pair. *)
Theorem reshape_cardinality (lo hi : Z) (raw : DataFrame) :
  (lo <= hi)%Z ->
  (forall c, In c (required_columns lo hi) -> In c (columns raw)) ->
  exists long,
    reshape lo hi raw = Ok long /\
    Z.of_nat (List.length long)
    = (Z.of_nat (List.length (rows raw)) * (hi - lo + 1))%Z /\
    forall i r y,
      nth_error (rows raw) i = Some r -> (lo <= y <= hi)%Z ->
      nth_error long (Z.to_nat (y - lo) * List.length (rows raw) + i)
      = Some (long_row (columns raw) r y).
Proof.
  intros Hle Hcols. exists (long_table lo hi raw). split; [|split].
  - now apply reshape_ok.
  - rewrite long_table_length. lia.
  - intros i r y. apply long_table_nth_error.
Qed.



(** C6. Null preservation: in a file whose records are no longer than its
    header, when the field of record [i] under the label of a year [y] in
    range is the token [..], the long row of record [i] and year [y] has
    GDP = NaN (so neither a number nor a string). *)
Theorem sentinel_is_NaN (lo hi : Z) (to_number : string -> option float)
    (default_na : list string) (world_gdp_csv : list (list string))
    (hdr : list string) (recs : list (list string))
    (i j : nat) (r : list string) (y : Z) :
  skipn 4 world_gdp_csv = hdr :: recs ->
  Forall (fun r => (List.length r <= List.length hdr)%nat) recs ->
  (forall c, In c (required_columns lo hi) -> In c hdr) ->
  nth_error recs i = Some r -> (lo <= y <= hi)%Z ->
  index_of (str y) hdr = Some j -> nth_error r j = Some ".."%string ->
  exists long x,
    get_gdp_data_between lo hi to_number default_na world_gdp_csv = Ok long /\
    nth_error long (Z.to_nat (y - lo) * List.length recs + i) = Some x /\
    Year x = y /\ GDP x = NaN /\
    (forall q, GDP x <> Num q) /\ (forall s, GDP x <> Str s).
Proof.
  intros Hfile Hlen Hcols Hr Hy Hj Htok.
  unfold get_gdp_data_between.
  rewrite (read_csv_ok _ _ _ _ _ hdr recs Hfile Hlen). cbn [bind].
  set (raw := {| columns := hdr; rows := _ |}).
  exists (long_table lo hi raw),
         (long_row hdr (parse_row to_number default_na [".."%string] recs 0
                                  (List.length hdr) r) y).
  assert (Hgdp : at_label hdr
                   (parse_row to_number default_na [".."%string] recs 0
                              (List.length hdr) r) (str y) = NaN).
  { rewrite at_label_parse_row, Hj. simpl. rewrite Htok.
    apply parse_cell_na. now left. }
  split; [now apply reshape_ok|]. split.
  - replace (List.length recs) with (List.length (rows raw))
      by (unfold raw; simpl; apply length_map).
    apply (long_table_nth_error lo hi raw); [|assumption].
    unfold raw. simpl. now rewrite nth_error_map, Hr.
  - simpl. rewrite Hgdp. repeat split; discriminate.
Qed.

(** C8. Schema errors: when a required column (Country Name, Country Code
    or the label of a year in range) is not a column of the frame,
    [reshape] raises a [KeyError] naming it and returns no table; when all
    of them are present it returns the long table, whatever the cells
    hold. *)
Theorem reshape_schema_error (lo hi : Z) (raw : DataFrame) :
  (forall c, In c (required_columns lo hi) -> ~ In c (columns raw) ->
     exists missing,
       reshape lo hi raw = Raise (KeyError missing) /\ In c missing) /\
  ((forall c, In c (required_columns lo hi) -> In c (columns raw)) ->
     reshape lo hi raw = Ok (long_table lo hi raw)).
Proof.
  split.
  - intros c. apply reshape_KeyError.
  - apply reshape_ok.
Qed.

(** ** The lookup [.iat[0]] *)

Lemma filter_first {A} (f : A -> bool) (pre post : list A) (x : A) :
  (forall p, In p pre -> f p = false) -> f x = true ->
  filter f (pre ++ x :: post) = x :: filter f post.
Proof.
  intros Hpre Hx. rewrite filter_app.
  replace (filter f pre) with (@nil A)
    by (symmetry; now apply filter_nil_iff).
  simpl. now rewrite Hx.
Qed.

Lemma filter_twice {A} (f g : A -> bool) (l : list A) :
  filter g (filter f l) = filter (fun x => f x && g x) l.
Proof.
  induction l as [|a l IH]; simpl; [reflexivity|].
  destruct (f a); simpl; [|assumption].
  destruct (g a); now rewrite IH.
Qed.

Lemma gdp_iat0_year_is (df : list (LongRow Z)) (y : Z) (country : string) :
  gdp_iat0 (year_is df y) country
  = iat0 (map GDP (filter (is_row y country) df)).
Proof. unfold gdp_iat0, code_is, year_is. now rewrite filter_twice. Qed.

(** The lookup either finds no row or returns the GDP of some row of the
    country in that year. *)
Lemma gdp_iat0_cases (df : list (LongRow Z)) (y : Z) (country : string) :
  (gdp_iat0 (year_is df y) country = Raise IndexError /\
   forall x, In x df -> is_row y country x = false) \/
  (exists x, In x df /\ is_row y country x = true /\
             gdp_iat0 (year_is df y) country = Ok (GDP x)).
Proof.
  rewrite gdp_iat0_year_is.
  destruct (filter (is_row y country) df) as [|x xs] eqn:E.
  - left. split; [reflexivity|]. now apply filter_nil_iff.
  - right. exists x.
    assert (Hx : In x (filter (is_row y country) df))
      by (rewrite E; now left).
    apply filter_In in Hx as [Hin Hrow]. now repeat split.
Qed.

Lemma gdp_iat0_first (pre post : list (LongRow Z)) (x : LongRow Z)
    (y : Z) (country : string) :
  (forall p, In p pre -> is_row y country p = false) ->
  is_row y country x = true ->
  gdp_iat0 (year_is (pre ++ x :: post) y) country = Ok (GDP x).
Proof.
  intros Hpre Hx. rewrite gdp_iat0_year_is.
  now rewrite filter_first.
Qed.

(** ** The metrics of a table without strings in its GDP column *)

Lemma numeric_GDP_year_is (df : list (LongRow Z)) (y : Z) :
  numeric_GDP df = true -> numeric_GDP (year_is df y) = true.
Proof.
  unfold numeric_GDP, year_is. rewrite !forallb_forall.
  intros H x Hx. apply filter_In in Hx as [Hx _]. now apply H.
Qed.

Lemma gdp_iat0_raise (df : list (LongRow Z)) (country : string) (e : exn) :
  gdp_iat0 df country = Raise e -> e = IndexError.
Proof.
  unfold gdp_iat0, iat0. destruct (map GDP (code_is df country));
    congruence.
Qed.

(** The figure in billions, by the outcome of the lookup. *)
Lemma gdp_in_billions_spec (df : list (LongRow Z)) (country : string) :
  gdp_in_billions df country
  = match gdp_iat0 df country with
    | Ok NaN => Ok nan
    | Ok (Num x) => Ok (truediv x billion)
    | Ok (Str _) => Raise TypeError
    | Raise _ => Ok nan
    end.
Proof.
  unfold gdp_in_billions.
  destruct (gdp_iat0 df country) as [[|x|s]|e] eqn:E; cbn [bind];
    try reflexivity.
  apply gdp_iat0_raise in E. now subst.
Qed.

Lemma gdp_in_billions_numeric (df : list (LongRow Z)) (y : Z)
    (country : string) :
  numeric_GDP df = true ->
  exists v, gdp_in_billions (year_is df y) country = Ok v.
Proof.
  intros Hnum. rewrite gdp_in_billions_spec.
  destruct (gdp_iat0_cases df y country) as [[-> _]|(x & Hin & _ & ->)].
  - now eexists.
  - unfold numeric_GDP in Hnum. rewrite forallb_forall in Hnum.
    specialize (Hnum x Hin).
    destruct (GDP x) as [|v|s]; [now eexists|now eexists|discriminate].
Qed.

(** On such a table the body of the loop raises nothing. *)
Lemma country_metric_numeric (df : list (LongRow Z)) (from_year to_year : Z)
    (country : string) :
  numeric_GDP df = true ->
  exists m,
    country_metric (year_is df from_year) (year_is df to_year) country
    = Ok m /\
    label m = String.append country " GDP".
Proof.
  intros Hnum. unfold country_metric.
  destruct (gdp_in_billions_numeric df from_year country Hnum) as (a & ->).
  destruct (gdp_in_billions_numeric df to_year country Hnum) as (b & ->).
  cbn [bind].
  destruct (isnan a || eq_zero a); eexists; split; reflexivity.
Qed.

Lemma for_each_total {A B} (body : A -> result B) (xs : list A) :
  (forall x, In x xs -> exists y, body x = Ok y) ->
  exists ys, for_each body xs = Ok ys.
Proof.
  induction xs as [|x xs IH]; intros H; simpl; [now eexists|].
  destruct (H x (or_introl eq_refl)) as (y & ->).
  destruct IH as (ys & ->); [intros; apply H; now right|].
  simpl. now eexists.
Qed.

Lemma for_each_Forall2 {A B} (body : A -> result B) (xs : list A)
    (ys : list B) :
  for_each body xs = Ok ys -> Forall2 (fun x y => body x = Ok y) xs ys.
Proof.
  revert ys. induction xs as [|x xs IH]; intros ys; simpl.
  - intros [= <-]. constructor.
  - destruct (body x) as [y|e] eqn:E; simpl; [|discriminate].
    destruct (for_each body xs) as [ys'|e]; simpl; [|discriminate].
    intros [= <-]. constructor; [assumption|now apply IH].
Qed.

Lemma Forall2_nth_error_l {A B} (R : A -> B -> Prop) (xs : list A)
    (ys : list B) (i : nat) (x : A) :
  Forall2 R xs ys -> nth_error xs i = Some x ->
  exists y, nth_error ys i = Some y /\ R x y.
Proof.
  intros H. revert i. induction H as [|a b xs ys Hab _ IH]; intros i.
  - now destruct i.
  - destruct i as [|i]; simpl.
    + intros [= <-]. now exists b.
    + apply IH.
Qed.

Lemma Forall2_map_eq {A B C} (R : A -> B -> Prop) (g : A -> C) (h : B -> C)
    (xs : list A) (ys : list B) :
  Forall2 R xs ys -> (forall x y, R x y -> h y = g x) ->
  map h ys = map g xs.
Proof.
  intros H Hgh. induction H as [|a b xs ys Hab _ IH]; simpl; [reflexivity|].
  now rewrite IH, (Hgh a b Hab).
Qed.

Lemma enumerate_from_nth_error {A} (xs : list A) (s i : nat) (x : A) :
  nth_error xs i = Some x ->
  nth_error (combine (seq s (List.length xs)) xs) i = Some ((s + i)%nat, x).
Proof.
  revert s i. induction xs as [|a xs IH]; intros s i; [now destruct i|].
  destruct i as [|i]; simpl.
  - intros [= <-]. now rewrite Nat.add_0_r.
  - intros H. rewrite (IH (S s) i H). f_equal. f_equal. lia.
Qed.

Lemma enumerate_from_split {A} (xs : list A) (s : nat) :
  map fst (combine (seq s (List.length xs)) xs) = seq s (List.length xs) /\
  map snd (combine (seq s (List.length xs)) xs) = xs.
Proof.
  revert s. induction xs as [|a xs IH]; intros s; simpl; [now split|].
  destruct (IH (S s)) as [-> ->]. now split.
Qed.

Lemma compute_metrics_total (df : list (LongRow Z)) (sel : list string)
    (from_year to_year : Z) :
  numeric_GDP df = true ->
  exists out, compute_metrics df sel from_year to_year = Ok out.
Proof.
  intros Hnum. unfold compute_metrics. apply for_each_total.
  intros [i country] _.
  destruct (country_metric_numeric df from_year to_year country Hnum)
    as (m & -> & _).
  simpl. now eexists.
Qed.

Lemma for_each_length {A B} (body : A -> result B) (xs : list A)
    (ys : list B) :
  for_each body xs = Ok ys -> List.length ys = List.length xs.
Proof.
  intros H. apply for_each_Forall2 in H.
  induction H; simpl; congruence.
Qed.

Lemma enumerate_length {A} (xs : list A) :
  List.length (enumerate xs) = List.length xs.
Proof.
  unfold enumerate. rewrite length_combine, length_seq. apply Nat.min_id.
Qed.

(** Each output of the loop belongs to the selected country of the same
    position. *)
Lemma compute_metrics_shape (df : list (LongRow Z)) (sel : list string)
    (from_year to_year : Z) (out : list (nat * metric)) :
  compute_metrics df sel from_year to_year = Ok out ->
  Forall2 (fun ic km =>
             fst km = (fst ic mod 4)%nat /\
             country_metric (year_is df from_year) (year_is df to_year)
                            (snd ic) = Ok (snd km))
          (enumerate sel) out.
Proof.
  intros H. apply for_each_Forall2 in H.
  eapply Forall2_impl; [|exact H].
  intros [i country] [k m]. simpl.
  destruct (country_metric _ _ country) as [m'|e]; simpl; [|discriminate].
  intros [= <- <-]. now split.
Qed.

Lemma country_metric_label (fy ly : list (LongRow Z)) (country : string)
    (m : metric) :
  country_metric fy ly country = Ok m ->
  label m = String.append country " GDP".
Proof.
  unfold country_metric.
  destruct (gdp_in_billions fy country) as [a|]; [|discriminate].
  destruct (gdp_in_billions ly country) as [b|]; [|discriminate].
  cbn [bind]. destruct (isnan a || eq_zero a); now intros [= <-].
Qed.

(** The metric of a country whose two figures are numbers, the first one
    neither NaN nor zero once in billions. *)
Lemma country_metric_ratio (fy ly : list (LongRow Z)) (country : string)
    (s e : float) :
  gdp_iat0 fy country = Ok (Num s) -> gdp_iat0 ly country = Ok (Num e) ->
  isnan (truediv s billion) = false -> eq_zero (truediv s billion) = false ->
  country_metric fy ly country
  = Ok {| label := String.append country " GDP";
          value := if negb (isnan (truediv e billion))
                   then fmt_0f_B (truediv e billion) else n_a;
          delta := fmt_2f_x (truediv (truediv e billion)
                                     (truediv s billion));
          delta_color := normal |}.
Proof.
  intros Hs He Hnan Hz. unfold country_metric.
  rewrite !gdp_in_billions_spec, Hs, He. cbn [bind].
  now rewrite Hnan, Hz.
Qed.

(** X12. The growth is ['n/a'], with [delta_color='off'], when the first
    figure is missing (no row, or a NaN) or zero. *)
Lemma growth_na_when_start_absent_or_zero (df : list (LongRow Z))
    (from_year to_year : Z) (country : string) :
  numeric_GDP df = true ->
  gdp_iat0 (year_is df from_year) country = Raise IndexError \/
  gdp_iat0 (year_is df from_year) country = Ok NaN \/
  (exists s, gdp_iat0 (year_is df from_year) country = Ok (Num s) /\
             eq_zero s = true) ->
  exists m,
    country_metric (year_is df from_year) (year_is df to_year) country
    = Ok m /\ delta m = n_a /\ delta_color m = off.
Proof.
  intros Hnum Hstart. unfold country_metric.
  assert (Hfirst :
    exists a, gdp_in_billions (year_is df from_year) country = Ok a /\
              isnan a || eq_zero a = true).
  { rewrite gdp_in_billions_spec.
    destruct Hstart as [->|[->|(s & -> & Hs)]].
    - now exists nan.
    - now exists nan.
    - exists (truediv s billion). split; [reflexivity|].
      rewrite (zero_in_billions s Hs). apply orb_true_r. }
  destruct Hfirst as (a & -> & Ha).
  destruct (gdp_in_billions_numeric df to_year country Hnum) as (b & ->).
  cbn [bind]. rewrite Ha. eexists. simpl. eauto.
Qed.

Lemma gdp_in_billions_raise (df : list (LongRow Z)) (country : string)
    (e : exn) :
  gdp_in_billions df country = Raise e <->
  e = TypeError /\ exists s, gdp_iat0 df country = Ok (Str s).
Proof.
  rewrite gdp_in_billions_spec.
  destruct (gdp_iat0 df country) as [[|q|s]|e']; split; intros H;
    try discriminate H;
    try (match type of H with
         | _ /\ _ => destruct H as [_ (s' & Hs)]; discriminate Hs
         end).
  - injection H as <-. eauto.
  - destruct H as [-> _]. reflexivity.
Qed.

Lemma country_metric_raise (fy ly : list (LongRow Z)) (country : string)
    (e : exn) :
  country_metric fy ly country = Raise e <->
  e = TypeError /\
  ((exists s, gdp_iat0 fy country = Ok (Str s)) \/
   (exists s, gdp_iat0 ly country = Ok (Str s))).
Proof.
  unfold country_metric.
  destruct (gdp_in_billions fy country) as [a|e1] eqn:E1.
  - destruct (gdp_in_billions ly country) as [b|e2] eqn:E2; cbn [bind].
    + split.
      * destruct (isnan a || eq_zero a); discriminate.
      * intros [_ [(s & H)|(s & H)]].
        -- assert (C : gdp_in_billions fy country = Raise TypeError)
             by (apply gdp_in_billions_raise; eauto). congruence.
        -- assert (C : gdp_in_billions ly country = Raise TypeError)
             by (apply gdp_in_billions_raise; eauto). congruence.
    + apply gdp_in_billions_raise in E2 as [-> Hs]. split.
      * intros [= <-]. auto.
      * intros [-> _]. reflexivity.
  - apply gdp_in_billions_raise in E1 as [-> Hs]. cbn [bind]. split.
    + intros [= <-]. auto.
    + intros [-> _]. reflexivity.
Qed.

Lemma for_each_raise {A B} (body : A -> result B) (xs : list A) (e : exn) :
  for_each body xs = Raise e -> exists x, In x xs /\ body x = Raise e.
Proof.
  induction xs as [|x xs IH]; simpl; [discriminate|].
  destruct (body x) as [y|e'] eqn:E; simpl.
  - destruct (for_each body xs) as [ys|e'']; simpl; [discriminate|].
    intros [= ->]. destruct IH as (x' & Hx' & Hb); [reflexivity|].
    exists x'. split; [now right|assumption].
  - intros [= ->]. exists x. split; [now left|assumption].
Qed.

Lemma for_each_fails {A B} (body : A -> result B) (xs : list A) (x : A)
    (e : exn) :
  In x xs -> body x = Raise e -> exists e', for_each body xs = Raise e'.
Proof.
  induction xs as [|a xs IH]; intros Hin Hx; [destruct Hin|]. simpl.
  destruct (body a) as [y|e'] eqn:E; simpl; [|now eexists].
  destruct Hin as [->|Hin]; [congruence|].
  destruct (IH Hin Hx) as (e'' & ->). simpl. now eexists.
Qed.

Lemma enumerate_In {A} (xs : list A) (i : nat) (x : A) :
  In (i, x) (enumerate xs) -> In x xs.
Proof. unfold enumerate. apply in_combine_r. Qed.

Lemma In_enumerate {A} (xs : list A) (x : A) :
  In x xs -> exists i, In (i, x) (enumerate xs).
Proof.
  intros H. apply In_nth_error in H as (i & Hi).
  exists (0 + i)%nat. unfold enumerate.
  eapply nth_error_In. now apply enumerate_from_nth_error.
Qed.

Lemma compute_metrics_nth (df : list (LongRow Z)) (sel : list string)
    (from_year to_year : Z) (out : list (nat * metric)) (i : nat)
    (country : string) :
  compute_metrics df sel from_year to_year = Ok out ->
  nth_error sel i = Some country ->
  exists m,
    nth_error out i = Some ((i mod 4)%nat, m) /\
    country_metric (year_is df from_year) (year_is df to_year) country
    = Ok m.
Proof.
  intros Hout Hsel.
  pose proof (compute_metrics_shape _ _ _ _ _ Hout) as Hshape.
  destruct (Forall2_nth_error_l _ _ _ i (i, country) Hshape)
    as ([k m] & Hnth & Hk & Hm).
  { unfold enumerate. now rewrite (enumerate_from_nth_error sel 0 i country). }
  simpl in Hk, Hm. subst k. now exists m.
Qed.


Lemma eq_str_iff (c : cell) (s : string) : eq_str c s = true <-> c = Str s.
Proof.
  destruct c as [|x|u]; simpl; split; try discriminate.
  - intros H. apply String.eqb_eq in H. now subst.
  - intros [= ->]. apply String.eqb_refl.
Qed.

Lemma is_row_iff (y : Z) (country : string) (r : LongRow Z) :
  is_row y country r = true <-> Year r = y /\ Country_Code r = Str country.
Proof.
  unfold is_row. now rewrite andb_true_iff, Z.eqb_eq, eq_str_iff.
Qed.

(** The lookup returns the figure of the first row of the year and the
    code. *)
Lemma first_row_lookup (df : list (LongRow Z)) (y : Z) (country : string)
    (x : LongRow Z) :
  first_row df y country x ->
  gdp_iat0 (year_is df y) country = Ok (GDP x).
Proof.
  intros (pre & post & -> & Hpre & Hy & Hc).
  apply gdp_iat0_first.
  - intros p Hp. destruct (is_row y country p) eqn:E; [|reflexivity].
    apply is_row_iff in E. now apply Hpre in E.
  - now apply is_row_iff.
Qed.

(** The loop returns one metric per selected code or raises
    [TypeError]. *)
Lemma compute_metrics_outcome (df : list (LongRow Z)) (sel : list string)
    (from_year to_year : Z) :
  compute_metrics df sel from_year to_year = Raise TypeError \/
  exists out,
    compute_metrics df sel from_year to_year = Ok out /\
    List.length out = List.length sel.
Proof.
  destruct (compute_metrics df sel from_year to_year) as [out|e] eqn:E.
  - right. exists out. split; [reflexivity|].
    apply for_each_length in E. now rewrite enumerate_length in E.
  - left. unfold compute_metrics in E.
    apply for_each_raise in E as ([i country] & _ & Hb).
    destruct (country_metric _ _ country) as [m|e'] eqn:Em;
      simpl in Hb; [discriminate|].
    injection Hb as ->. now apply country_metric_raise in Em as [-> _].
Qed.

Lemma string_length_append (a b : string) :
  String.length (String.append a b)
  = (String.length a + String.length b)%nat.
Proof. induction a as [|c a IH]; simpl; [reflexivity|now rewrite IH]. Qed.

Lemma append_inj_l (a b s : string) :
  String.append a s = String.append b s -> a = b.
Proof.
  revert b. induction a as [|c a IH]; intros [|d b]; simpl; intros H.
  - reflexivity.
  - apply (f_equal String.length) in H. simpl in H.
    rewrite string_length_append in H. lia.
  - apply (f_equal String.length) in H. simpl in H.
    rewrite string_length_append in H. lia.
  - injection H as -> H. f_equal. now apply IH.
Qed.

Lemma NoDup_map_injective {A B} (f : A -> B) (l : list A) :
  (forall x y, f x = f y -> x = y) -> NoDup l -> NoDup (map f l).
Proof.
  intros Hf Hl. induction Hl as [|a l Ha _ IH]; simpl; constructor;
    [|assumption].
  rewrite in_map_iff. intros (x & E & Hx). apply Hf in E. now subst.
Qed.

Lemma for_each_ext_in {A B} (f g : A -> result B) (xs : list A) :
  (forall x, In x xs -> f x = g x) -> for_each f xs = for_each g xs.
Proof.
  induction xs as [|x xs IH]; intros H; simpl; [reflexivity|].
  rewrite (H x) by now left.
  rewrite IH by (intros; apply H; now right). reflexivity.
Qed.

Lemma filter_of_filter {A} (f g : A -> bool) (l : list A) :
  (forall x, f x = true -> g x = true) ->
  filter f (filter g l) = filter f l.
Proof.
  intros H. rewrite filter_twice. apply filter_ext. intros x.
  destruct (f x) eqn:E; [|apply andb_false_r]. now rewrite (H x E).
Qed.

(** The lookup of a selected code in the first or in the last year sees
    only the rows that [read_by_metrics] keeps. *)
Lemma gdp_iat0_read_by_metrics (df : list (LongRow Z)) (sel : list string)
    (from_year to_year y : Z) (country : string) :
  In country sel -> y = from_year \/ y = to_year ->
  gdp_iat0 (year_is df y) country
  = gdp_iat0 (year_is (filter (read_by_metrics sel from_year to_year) df) y)
             country.
Proof.
  intros Hsel Hy. rewrite !gdp_iat0_year_is. f_equal. f_equal.
  symmetry. apply filter_of_filter. intros x Hx.
  apply is_row_iff in Hx as [Hyear Hcode]. unfold read_by_metrics.
  rewrite Hcode, Hyear. apply andb_true_iff. split.
  - now apply existsb_eqb_In.
  - destruct Hy as [-> | ->]; rewrite Z.eqb_refl; auto using orb_true_r.
Qed.

(** ** The claims on the metrics *)

(** C1. A country with a figure for the first year and none for the last:
    the loop does not take the ['n/a'] branch; it formats the NaN ratio
    and hands it to [st.metric] with [delta_color='normal']. *)
Theorem growth_when_end_missing :
  compute_metrics DEU_end_missing ["DEU"%string] 2020 2021
  = Ok [ (O, {| label := "DEU GDP";
                value := n_a;
                delta := fmt_2f_x nan;
                delta_color := normal |}) ].
Proof. vm_compute. reflexivity. Qed.

(** C2, as the code has it: with several rows for one (Country Code, Year)
    the lookup returns the figure of the first of them in storage order,
    whatever follows it; the loop raises nothing for the duplicates: it
    returns one metric per selected country or stops with [TypeError] (a
    string in the GDP column), and it returns when the column holds no
    string. *)
Theorem duplicate_key_takes_first_row (pre post : list (LongRow Z))
    (x : LongRow Z) (y : Z) (country : string) (sel : list string)
    (from_year to_year : Z) :
  (forall p, In p pre -> ~ (Year p = y /\ Country_Code p = Str country)) ->
  Year x = y -> Country_Code x = Str country ->
  gdp_iat0 (year_is (pre ++ x :: post) y) country = Ok (GDP x) /\
  (compute_metrics (pre ++ x :: post) sel from_year to_year
   = Raise TypeError \/
   exists out,
     compute_metrics (pre ++ x :: post) sel from_year to_year = Ok out /\
     List.length out = List.length sel) /\
  (numeric_GDP (pre ++ x :: post) = true ->
   exists out,
     compute_metrics (pre ++ x :: post) sel from_year to_year = Ok out).
Proof.
  intros Hpre Hy Hc. split; [|split].
  - apply first_row_lookup. now exists pre, post.
  - apply compute_metrics_outcome.
  - apply compute_metrics_total.
Qed.

(** C2 fails on the code: a table with two rows for (DEU, 2020) gives an
    ordinary metric, computed from the first of the two rows (10, not
    20: the growth to 25 is 2.5). *)
Lemma duplicate_key_no_error :
  ~ NoDup (map key DEU_duplicated) /\
  exists m,
    compute_metrics DEU_duplicated ["DEU"%string] 2020 2021 = Ok [(O, m)] /\
    delta m = fmt_2f_x 2.5%float.
Proof.
  split.
  - intros H. inversion_clear H as [|? ? Hin _]. apply Hin. now left.
  - eexists. split; [vm_compute; reflexivity|]. reflexivity.
Qed.



(** C7. Order: for a selection that lists no code twice, as the
    multiselect hands it over, the loop, unless it stops with [TypeError],
    returns one metric per selected code, in the order of the selection
    and whatever the order of the rows of the table: the metric at
    position [i] is labelled with the [i]-th selected code and drawn in
    column [i mod 4], and no two metrics carry the same label. It returns
    whenever the GDP column holds no string. *)
Theorem metrics_follow_selection (df : list (LongRow Z))
    (sel : list string) (from_year to_year : Z) :
  NoDup sel ->
  (compute_metrics df sel from_year to_year = Raise TypeError \/
   exists out,
     compute_metrics df sel from_year to_year = Ok out /\
     map (fun km => label (snd km)) out
     = map (fun country => String.append country " GDP") sel /\
     map fst out = map (fun i => (i mod 4)%nat) (seq 0 (List.length sel)) /\
     NoDup (map (fun km => label (snd km)) out)) /\
  (numeric_GDP df = true ->
   exists out, compute_metrics df sel from_year to_year = Ok out).
Proof.
  intros Hsel. split; [|apply compute_metrics_total].
  destruct (compute_metrics_outcome df sel from_year to_year)
    as [Hraise|(out & Hout & _)]; [now left|right].
  pose proof (compute_metrics_shape _ _ _ _ _ Hout) as Hshape.
  destruct (enumerate_from_split sel 0) as [Hfst Hsnd].
  assert (Hlabels : map (fun km => label (snd km)) out
                    = map (fun country => String.append country " GDP") sel).
  { transitivity (map (fun ic : nat * string =>
                         String.append (snd ic) " GDP") (enumerate sel)).
    - apply (Forall2_map_eq _ _ _ _ _ Hshape).
      intros ic km [_ Hm]. now apply country_metric_label in Hm.
    - unfold enumerate.
      rewrite <- (map_map snd (fun c => String.append c " GDP")).
      now rewrite Hsnd. }
  exists out. split; [assumption|]. split; [assumption|]. split.
  - transitivity (map (fun ic : nat * string => (fst ic mod 4)%nat)
                       (enumerate sel)).
    + apply (Forall2_map_eq _ _ _ _ _ Hshape).
      now intros ic km [Hk _].
    + unfold enumerate.
      rewrite <- (map_map fst (fun i => (i mod 4)%nat)).
      now rewrite Hfst.
  - rewrite Hlabels. apply NoDup_map_injective; [|assumption].
    intros a b. apply append_inj_l.
Qed.

(** C9. Two runs: [reshape] on two frames that agree on their required
    columns, identical frames in particular, returns the same result, the
    same long table or the same [KeyError]; the metrics loop on two
    tables that agree on the rows of the selected codes in the first and
    in the last year, identical tables in particular, returns the same
    result. Neither reads anything else. *)
Theorem same_inputs_same_outputs (lo hi : Z) (raw1 raw2 : DataFrame)
    (df1 df2 : list (LongRow Z)) (sel : list string)
    (from_year to_year : Z) :
  ((forall c, In c (required_columns lo hi) ->
              (In c (columns raw1) <-> In c (columns raw2))) ->
   map (fun r => map (at_label (columns raw1) r) (required_columns lo hi))
       (rows raw1)
   = map (fun r => map (at_label (columns raw2) r) (required_columns lo hi))
         (rows raw2) ->
   reshape lo hi raw1 = reshape lo hi raw2) /\
  (filter (read_by_metrics sel from_year to_year) df1
   = filter (read_by_metrics sel from_year to_year) df2 ->
   compute_metrics df1 sel from_year to_year
   = compute_metrics df2 sel from_year to_year).
Proof.
  split.
  - intros Hcols Hrows. unfold reshape, getitem.
    rewrite (filter_ext_in
               (fun c => negb (existsb (String.eqb c) (columns raw1)))
               (fun c => negb (existsb (String.eqb c) (columns raw2)))).
    + destruct (filter _ (required_columns lo hi)); [|reflexivity].
      now rewrite Hrows.
    + intros c Hc. f_equal. apply eq_true_iff_eq.
      rewrite !existsb_eqb_In. now apply Hcols.
  - intros Hrows. unfold compute_metrics. apply for_each_ext_in.
    intros [i country] Hin. apply enumerate_In in Hin.
    assert (E : forall y, y = from_year \/ y = to_year ->
      gdp_iat0 (year_is df1 y) country = gdp_iat0 (year_is df2 y) country).
    { intros y Hy.
      rewrite (gdp_iat0_read_by_metrics df1 sel from_year to_year y country),
              (gdp_iat0_read_by_metrics df2 sel from_year to_year y country)
        by assumption.
      now rewrite Hrows. }
    unfold country_metric.
    rewrite !gdp_in_billions_spec, !E by auto. reflexivity.
Qed.


(** ** The theorems at sample inputs *)

(** France has no figure for 2020 in the sample frame: the lookup returns
    the NaN of its row, not an [IndexError]. *)
Example missing_figure_is_a_NaN_cell :
  (long <- reshape 2020 2021 sample_frame ;;
   gdp_iat0 (year_is long 2020) "FRA") = Ok NaN.
Proof. vm_compute. reflexivity. Qed.

(** The sample file, read and reshaped. *)
Example get_gdp_data_sample :
  get_gdp_data_between 2020 2021 int_token [""%string] sample_csv
  = Ok [ row "Germany" "DEU" 2020 (Num 3000%float);
         row "France" "FRA" 2020 NaN;
         row "Germany" "DEU" 2021 NaN;
         row "France" "FRA" 2021 (Num 2500%float) ].
Proof. vm_compute. reflexivity. Qed.

Lemma has_columns_In (cols labels : list string) :
  has_columns cols labels = true ->
  forall c, In c labels -> In c cols.
Proof.
  unfold has_columns. rewrite forallb_forall.
  intros H c Hc. now apply existsb_eqb_In, H.
Qed.

(** The required columns of a concrete frame, checked by evaluation. *)
Ltac columns_present := apply has_columns_In; vm_compute; reflexivity.

Lemma reshape_cardinality_witness :
  exists long,
    reshape 2020 2021 sample_frame = Ok long /\
    Z.of_nat (List.length long)
    = (Z.of_nat (List.length (rows sample_frame)) * (2021 - 2020 + 1))%Z /\
    forall i r y,
      nth_error (rows sample_frame) i = Some r -> (2020 <= y <= 2021)%Z ->
      nth_error long
        (Z.to_nat (y - 2020) * List.length (rows sample_frame) + i)
      = Some (long_row (columns sample_frame) r y).
Proof.
  apply (reshape_cardinality 2020 2021 sample_frame).
  - lia.
  - columns_present.
Defined.


Lemma sentinel_is_NaN_witness :
  exists long x,
    get_gdp_data_between 2020 2021 int_token [""%string] sample_csv
    = Ok long /\
    nth_error long
      (Z.to_nat (2021 - 2020) * List.length [sample_DEU; sample_FRA] + 0)
    = Some x /\
    Year x = 2021%Z /\ GDP x = NaN /\
    (forall q, GDP x <> Num q) /\ (forall s, GDP x <> Str s).
Proof.
  apply (sentinel_is_NaN 2020 2021 int_token [""%string] sample_csv
           sample_header [sample_DEU; sample_FRA] 0 4 sample_DEU 2021).
  - reflexivity.
  - repeat constructor.
  - columns_present.
  - reflexivity.
  - lia.
  - vm_compute. reflexivity.
  - reflexivity.
Defined.

Lemma reshape_schema_error_witness :
  (exists missing,
     reshape 2020 2021 sample_frame_2020 = Raise (KeyError missing) /\
     In "2021"%string missing) /\
  reshape 2020 2021 sample_frame = Ok (long_table 2020 2021 sample_frame).
Proof.
  split.
  - apply (proj1 (reshape_schema_error 2020 2021 sample_frame_2020)).
    + vm_compute. auto.
    + vm_compute. intros [H|[H|[H|[]]]]; discriminate H.
  - apply (proj2 (reshape_schema_error 2020 2021 sample_frame)).
    columns_present.
Defined.

Lemma duplicate_key_takes_first_row_witness :
  gdp_iat0
    (year_is ([row "France" "FRA" 2020 (Num 7%float)]
              ++ row "Germany" "DEU" 2020 (Num 10%float)
              :: [row "Germany" "DEU" 2020 (Num 20%float);
                  row "Germany" "DEU" 2021 (Num 25%float)]) 2020)
    "DEU"
  = Ok (GDP (row "Germany" "DEU" 2020 (Num 10%float))) /\
  (compute_metrics
     ([row "France" "FRA" 2020 (Num 7%float)]
      ++ row "Germany" "DEU" 2020 (Num 10%float)
      :: [row "Germany" "DEU" 2020 (Num 20%float);
          row "Germany" "DEU" 2021 (Num 25%float)])
     ["DEU"; "FRA"]%string 2020 2021 = Raise TypeError \/
   exists out,
     compute_metrics
       ([row "France" "FRA" 2020 (Num 7%float)]
        ++ row "Germany" "DEU" 2020 (Num 10%float)
        :: [row "Germany" "DEU" 2020 (Num 20%float);
            row "Germany" "DEU" 2021 (Num 25%float)])
       ["DEU"; "FRA"]%string 2020 2021 = Ok out /\
     List.length out = List.length ["DEU"; "FRA"]%string) /\
  (numeric_GDP
     ([row "France" "FRA" 2020 (Num 7%float)]
      ++ row "Germany" "DEU" 2020 (Num 10%float)
      :: [row "Germany" "DEU" 2020 (Num 20%float);
          row "Germany" "DEU" 2021 (Num 25%float)]) = true ->
   exists out,
     compute_metrics
       ([row "France" "FRA" 2020 (Num 7%float)]
        ++ row "Germany" "DEU" 2020 (Num 10%float)
        :: [row "Germany" "DEU" 2020 (Num 20%float);
            row "Germany" "DEU" 2021 (Num 25%float)])
       ["DEU"; "FRA"]%string 2020 2021 = Ok out).
Proof.
  apply (duplicate_key_takes_first_row
           [row "France" "FRA" 2020 (Num 7%float)]
           [row "Germany" "DEU" 2020 (Num 20%float);
            row "Germany" "DEU" 2021 (Num 25%float)]
           (row "Germany" "DEU" 2020 (Num 10%float))
           2020 "DEU" ["DEU"; "FRA"]%string 2020 2021).
  - intros p [<-|[]] [_ H]. discriminate H.
  - reflexivity.
  - reflexivity.
Defined.


Lemma metrics_follow_selection_witness :
  (compute_metrics DEU_duplicated ["FRA"; "DEU"; "JPN"]%string 2020 2021
   = Raise TypeError \/
   exists out,
     compute_metrics DEU_duplicated ["FRA"; "DEU"; "JPN"]%string 2020 2021
     = Ok out /\
     map (fun km => label (snd km)) out
     = map (fun country => String.append country " GDP")
           ["FRA"; "DEU"; "JPN"]%string /\
     map fst out
     = map (fun i => (i mod 4)%nat)
           (seq 0 (List.length ["FRA"; "DEU"; "JPN"]%string)) /\
     NoDup (map (fun km => label (snd km)) out)) /\
  (numeric_GDP DEU_duplicated = true ->
   exists out,
     compute_metrics DEU_duplicated ["FRA"; "DEU"; "JPN"]%string 2020 2021
     = Ok out).
Proof.
  apply (metrics_follow_selection DEU_duplicated
           ["FRA"; "DEU"; "JPN"]%string 2020 2021).
  repeat constructor; simpl; intuition discriminate.
Defined.

Lemma same_inputs_same_outputs_witness :
  reshape 2020 2021 sample_frame = reshape 2020 2021 sample_frame_indicator /\
  compute_metrics DEU_10_25 ["DEU"%string] 2020 2021
  = compute_metrics (row "France" "FRA" 2020 (Num 7%float) :: DEU_10_25)
                    ["DEU"%string] 2020 2021.
Proof.
  destruct (same_inputs_same_outputs 2020 2021 sample_frame
              sample_frame_indicator DEU_10_25
              (row "France" "FRA" 2020 (Num 7%float) :: DEU_10_25)
              ["DEU"%string] 2020 2021) as [Hreshape Hmetrics].
  split.
  - apply Hreshape.
    + intros c Hc. vm_compute in Hc. vm_compute. tauto.
    + vm_compute. reflexivity.
  - apply Hmetrics. reflexivity.
Defined.


(** * More of the script *)

(** ** Ranges of years *)

Lemma range_nil (a b : Z) : (b <= a)%Z -> range a b = [].
Proof.
  intros H. unfold range. now replace (Z.to_nat (b - a)) with O by lia.
Qed.

Lemma range_cons (a b : Z) : (a < b)%Z -> range a b = a :: range (a + 1) b.
Proof.
  intros H. unfold range.
  replace (Z.to_nat (b - a)) with (S (Z.to_nat (b - (a + 1)))) by lia.
  simpl. f_equal; [lia|].
  rewrite <- seq_shift, map_map. apply map_ext. intros k. lia.
Qed.

Lemma filter_range (from_year to_year a b : Z) :
  filter (fun z => (from_year <=? z)%Z && (z <=? to_year)%Z) (range a b)
  = range (Z.max a from_year) (Z.min b (to_year + 1)).
Proof.
  remember (Z.to_nat (b - a)) as n eqn:En. revert a En.
  induction n as [|n IH]; intros a En.
  - rewrite !range_nil by lia. reflexivity.
  - rewrite (range_cons a b) by lia. simpl.
    rewrite (IH (a + 1)%Z) by lia.
    destruct (Z.leb_spec from_year a); destruct (Z.leb_spec a to_year); simpl.
    + rewrite (range_cons (Z.max a from_year)) by lia.
      f_equal; [lia|]. f_equal; lia.
    + rewrite !range_nil by lia. reflexivity.
    + f_equal; lia.
    + rewrite !range_nil by lia. reflexivity.
Qed.

Lemma filter_map_comm {A B} (P : B -> bool) (f : A -> B) (l : list A) :
  filter P (map f l) = map f (filter (fun a => P (f a)) l).
Proof.
  induction l as [|a l IH]; simpl; [reflexivity|].
  destruct (P (f a)); simpl; now rewrite IH.
Qed.

(** Filtering the long table on the year and on the code filters the
    years and the wide rows. *)
Lemma long_table_filter (Py : Z -> bool) (Pc : cell -> bool) (lo hi : Z)
    (df : DataFrame) :
  filter (fun x => Py (Year x) && Pc (Country_Code x)) (long_table lo hi df)
  = flat_map
      (fun y => map (fun r => long_row (columns df) r y)
                    (filter (fun r => Pc (at_label (columns df) r
                                                   "Country Code"))
                            (rows df)))
      (filter Py (range lo (hi + 1))).
Proof.
  unfold long_table. generalize (range lo (hi + 1)) as ys.
  induction ys as [|y ys IH]; simpl; [reflexivity|].
  rewrite filter_app, IH, filter_map_comm. simpl.
  destruct (Py y); simpl; [reflexivity|].
  replace (filter (fun _ => false) (rows df)) with (@nil (list cell));
    [reflexivity|].
  symmetry. now apply filter_nil_iff.
Qed.



(** ** The filtered frame and the chart *)



Lemma long_table_lookup (lo hi : Z) (raw : DataFrame)
    (pre post : list (list cell)) (r : list cell) (y : Z)
    (country : string) :
  (lo <= y <= hi)%Z ->
  rows raw = pre ++ r :: post ->
  (forall p, In p pre ->
     eq_str (at_label (columns raw) p "Country Code") country = false) ->
  eq_str (at_label (columns raw) r "Country Code") country = true ->
  gdp_iat0 (year_is (long_table lo hi raw) y) country
  = Ok (at_label (columns raw) r (str y)).
Proof.
  intros Hy Hrows Hpre Hr.
  rewrite gdp_iat0_year_is. unfold is_row.
  pose proof (long_table_filter (fun z => (z =? y)%Z)
                (fun c => eq_str c country) lo hi raw) as H.
  cbv beta in H. rewrite H.
  rewrite (filter_ext _ (fun z => (y <=? z)%Z && (z <=? y)%Z)) by (intros; lia).
  rewrite filter_range.
  replace (Z.max lo y) with y by lia.
  replace (Z.min (hi + 1) (y + 1)) with (y + 1)%Z by lia.
  rewrite (range_cons y) by lia. rewrite range_nil by lia. simpl.
  rewrite Hrows, filter_first by assumption. reflexivity.
Qed.

(** X7. Lookup after reshape: for a year in range, the lookup of a code
    returns the cell that the first wide row with that code holds under
    the label of the year. *)
Theorem lookup_returns_wide_cell (lo hi : Z) (raw : DataFrame)
    (pre post : list (list cell)) (r : list cell) (y : Z)
    (country : string) :
  (forall c, In c (required_columns lo hi) -> In c (columns raw)) ->
  (lo <= y <= hi)%Z ->
  rows raw = pre ++ r :: post ->
  (forall p, In p pre ->
     eq_str (at_label (columns raw) p "Country Code") country = false) ->
  eq_str (at_label (columns raw) r "Country Code") country = true ->
  exists long,
    reshape lo hi raw = Ok long /\
    gdp_iat0 (year_is long y) country
    = Ok (at_label (columns raw) r (str y)).
Proof.
  intros Hcols Hy Hrows Hpre Hr. exists (long_table lo hi raw).
  split; [now apply reshape_ok|]. now apply (long_table_lookup _ _ _ pre post).
Qed.

(** X8. From the wide table to the growth: when the first wide row with a
    code holds the numbers [s] and [e] under the labels of the first and
    of the last year, both in range, with [s / 1e9] neither NaN nor zero
    and [e / 1e9] not NaN, the metric of that code shows the value
    [e / 1e9] and the growth of the double [(e / 1e9) / (s / 1e9)]. *)
Theorem growth_from_wide_row (lo hi : Z) (raw : DataFrame)
    (pre post : list (list cell)) (r : list cell)
    (from_year to_year : Z) (country : string) (s e : float) :
  (forall c, In c (required_columns lo hi) -> In c (columns raw)) ->
  (lo <= from_year <= hi)%Z -> (lo <= to_year <= hi)%Z ->
  rows raw = pre ++ r :: post ->
  (forall p, In p pre ->
     eq_str (at_label (columns raw) p "Country Code") country = false) ->
  eq_str (at_label (columns raw) r "Country Code") country = true ->
  at_label (columns raw) r (str from_year) = Num s ->
  at_label (columns raw) r (str to_year) = Num e ->
  isnan (truediv s billion) = false -> eq_zero (truediv s billion) = false ->
  isnan (truediv e billion) = false ->
  exists long,
    reshape lo hi raw = Ok long /\
    country_metric (year_is long from_year) (year_is long to_year) country
    = Ok {| label := String.append country " GDP";
            value := fmt_0f_B (truediv e billion);
            delta := fmt_2f_x (truediv (truediv e billion)
                                       (truediv s billion));
            delta_color := normal |}.
Proof.
  intros Hcols Hfrom Hto Hrows Hpre Hr Hs He Hnan Hz Hend.
  exists (long_table lo hi raw).
  split; [now apply reshape_ok|].
  rewrite (country_metric_ratio _ _ _ s e); try assumption.
  - now rewrite Hend.
  - rewrite <- Hs. now apply (long_table_lookup _ _ _ pre post).
  - rewrite <- He. now apply (long_table_lookup _ _ _ pre post).
Qed.

(** ** The slider bounds *)

Lemma fold_min_le (ys : list Z) (y : Z) :
  (fold_left Z.min ys y <= y)%Z /\
  forall z, In z ys -> (fold_left Z.min ys y <= z)%Z.
Proof.
  revert y. induction ys as [|a ys IH]; intros y; simpl.
  - split; [lia|intros z []].
  - destruct (IH (Z.min y a)) as [H1 H2]. split; [lia|].
    intros z [<-|Hz]; [lia|now apply H2].
Qed.

Lemma fold_min_In (ys : list Z) (y : Z) :
  In (fold_left Z.min ys y) (y :: ys).
Proof.
  revert y. induction ys as [|a ys IH]; intros y; simpl; [now left|].
  destruct (IH (Z.min y a)) as [H|H]; [|now right; right].
  rewrite <- H. destruct (Z.min_spec y a) as [[_ ->]|[_ ->]]; auto.
Qed.

Lemma fold_max_ge (ys : list Z) (y : Z) :
  (y <= fold_left Z.max ys y)%Z /\
  forall z, In z ys -> (z <= fold_left Z.max ys y)%Z.
Proof.
  revert y. induction ys as [|a ys IH]; intros y; simpl.
  - split; [lia|intros z []].
  - destruct (IH (Z.max y a)) as [H1 H2]. split; [lia|].
    intros z [<-|Hz]; [lia|now apply H2].
Qed.

Lemma fold_max_In (ys : list Z) (y : Z) :
  In (fold_left Z.max ys y) (y :: ys).
Proof.
  revert y. induction ys as [|a ys IH]; intros y; simpl; [now left|].
  destruct (IH (Z.max y a)) as [H|H]; [|now right; right].
  rewrite <- H. destruct (Z.max_spec y a) as [[_ ->]|[_ ->]]; auto.
Qed.

Lemma int_min_least (s : list Z) (m : Z) :
  In m s -> (forall z, In z s -> (m <= z)%Z) -> int_min s = Ok m.
Proof.
  destruct s as [|y ys]; [intros []|]. intros Hm Hle. simpl. f_equal.
  destruct (fold_min_le ys y) as [H1 H2].
  pose proof (fold_min_In ys y) as Hin. apply Hle in Hin.
  destruct Hm as [<-|Hm]; [lia|]. apply H2 in Hm. lia.
Qed.

Lemma int_max_greatest (s : list Z) (m : Z) :
  In m s -> (forall z, In z s -> (z <= m)%Z) -> int_max s = Ok m.
Proof.
  destruct s as [|y ys]; [intros []|]. intros Hm Hle. simpl. f_equal.
  destruct (fold_max_ge ys y) as [H1 H2].
  pose proof (fold_max_In ys y) as Hin. apply Hle in Hin.
  destruct Hm as [<-|Hm]; [lia|]. apply H2 in Hm. lia.
Qed.

Lemma long_table_years (lo hi : Z) (df : DataFrame) (z : Z) :
  In z (map Year (long_table lo hi df)) <->
  (lo <= z <= hi)%Z /\ rows df <> [].
Proof.
  rewrite in_map_iff. split.
  - intros (x & <- & Hx). apply long_table_In in Hx as (r & y & Hr & Hy & ->).
    split; [assumption|]. intros E. now rewrite E in Hr.
  - intros [Hz Hrows]. destruct (rows df) as [|r rs] eqn:E; [congruence|].
    exists (long_row (columns df) r z). split; [reflexivity|].
    apply long_table_In. exists r, z. rewrite E. repeat split; auto; try lia.
    now left.
Qed.

(** X1. The slider bounds: for a wide table with at least one row and
    [lo <= hi], the minimum and the maximum of the Year column of the long
    table are the two bounds of the years that were loaded. *)
Theorem slider_bounds_are_year_range (lo hi : Z) (raw : DataFrame) :
  (forall c, In c (required_columns lo hi) -> In c (columns raw)) ->
  (lo <= hi)%Z -> rows raw <> [] ->
  exists long,
    reshape lo hi raw = Ok long /\ slider_bounds long = Ok (lo, hi).
Proof.
  intros Hcols Hle Hrows. exists (long_table lo hi raw).
  split; [now apply reshape_ok|]. unfold slider_bounds.
  rewrite (int_min_least _ lo), (int_max_greatest _ hi).
  - reflexivity.
  - apply long_table_years. split; [lia|assumption].
  - intros z Hz. apply long_table_years in Hz. lia.
  - apply long_table_years. split; [lia|assumption].
  - intros z Hz. apply long_table_years in Hz. lia.
Qed.

(** X2. A file that holds the header line and no record: [get_gdp_data]
    returns the empty long table, and the slider bounds of line 72 raise
    [ValueError]. *)
Theorem header_only_file_ValueError (lo hi : Z)
    (to_number : string -> option float) (default_na : list string)
    (world_gdp_csv : list (list string)) (hdr : list string) :
  skipn 4 world_gdp_csv = [hdr] ->
  (forall c, In c (required_columns lo hi) -> In c hdr) ->
  get_gdp_data_between lo hi to_number default_na world_gdp_csv = Ok [] /\
  (gdp_df <- get_gdp_data_between lo hi to_number default_na world_gdp_csv ;;
   slider_bounds gdp_df) = Raise ValueError.
Proof.
  intros Hfile Hcols.
  assert (E : get_gdp_data_between lo hi to_number default_na world_gdp_csv
              = Ok []).
  { unfold get_gdp_data_between.
    rewrite (read_csv_ok _ _ _ _ _ hdr [] Hfile (Forall_nil _)).
    cbn [bind map].
    rewrite reshape_ok by assumption. f_equal.
    apply length_zero_iff_nil. rewrite long_table_length. simpl. lia. }
  split; [assumption|]. now rewrite E.
Qed.

(** ** The order of the long table *)

Lemma StronglySorted_app {A} (R : A -> A -> Prop) (l1 l2 : list A) :
  StronglySorted R l1 -> StronglySorted R l2 ->
  (forall a b, In a l1 -> In b l2 -> R a b) ->
  StronglySorted R (l1 ++ l2).
Proof.
  intros H1 H2 H. induction H1 as [|a l1 Hl1 IH Ha]; simpl; [assumption|].
  constructor.
  - apply IH. intros x b Hx Hb. apply H; [now right|assumption].
  - apply Forall_app. split; [assumption|].
    apply Forall_forall. intros b Hb. apply H; [now left|assumption].
Qed.

Lemma StronglySorted_const (y : Z) {A} (l : list A) :
  StronglySorted Z.le (map (fun _ => y) l).
Proof.
  induction l as [|a l IH]; simpl; constructor; [assumption|].
  apply Forall_forall. intros z Hz. apply in_map_iff in Hz as (_ & <- & _).
  lia.
Qed.

(** X6. The long table is ordered by year: [melt] lays the year columns one
    after the other, so the Year column never decreases from one row to
    the next ones, and every year lies in the range that was loaded. *)
Theorem long_table_ordered_by_year (lo hi : Z) (raw : DataFrame) :
  (forall c, In c (required_columns lo hi) -> In c (columns raw)) ->
  exists long,
    reshape lo hi raw = Ok long /\
    StronglySorted Z.le (map Year long) /\
    Forall (fun y => (lo <= y <= hi)%Z) (map Year long).
Proof.
  intros Hcols. exists (long_table lo hi raw).
  split; [now apply reshape_ok|]. split.
  - unfold long_table.
    remember (Z.to_nat (hi + 1 - lo)) as n eqn:En.
    revert En. generalize lo as a. clear Hcols.
    induction n as [|n IH]; intros a En.
    + rewrite range_nil by lia. constructor.
    + rewrite range_cons by lia. simpl. rewrite map_app, map_map. simpl.
      apply StronglySorted_app.
      * apply StronglySorted_const.
      * apply IH. lia.
      * intros y z Hy Hz. apply in_map_iff in Hy as (_ & <- & _).
        apply in_map_iff in Hz as (x & <- & Hx).
        apply in_flat_map in Hx as (y' & Hy' & Hx).
        apply in_map_iff in Hx as (r & <- & _). apply range_In in Hy'.
        simpl. lia.
  - apply Forall_forall. intros z Hz. now apply long_table_years in Hz.
Qed.

(** ** The options of the country selection *)

Lemma same_cell_refl (c : cell) : same_cell c c = true.
Proof.
  destruct c as [|x|s]; unfold same_cell; simpl; [reflexivity| |].
  - unfold PrimFloat.is_nan. now destruct (PrimFloat.eqb x x).
  - apply String.eqb_refl.
Qed.

Lemma unique_from_app (seen l1 l2 : list cell) :
  unique_from seen (l1 ++ l2)
  = unique_from seen l1
    ++ unique_from (rev (unique_from seen l1) ++ seen) l2.
Proof.
  revert seen. induction l1 as [|c l1 IH]; intros seen; simpl; [reflexivity|].
  destruct (existsb (same_cell c) seen); [apply IH|].
  simpl. rewrite IH, <- app_assoc. reflexivity.
Qed.

Lemma unique_from_covered (seen l : list cell) :
  (forall c, In c l -> existsb (same_cell c) seen = true) ->
  unique_from seen l = [].
Proof.
  induction l as [|c l IH]; intros H; simpl; [reflexivity|].
  rewrite (H c) by now left. apply IH. intros; apply H; now right.
Qed.

Lemma unique_from_seen (seen l : list cell) (c : cell) :
  In c l ->
  existsb (same_cell c) (rev (unique_from seen l) ++ seen) = true.
Proof.
  revert seen. induction l as [|a l IH]; intros seen Hc; [destruct Hc|].
  simpl. destruct (existsb (same_cell a) seen) eqn:E.
  - destruct Hc as [<-|Hc]; [|now apply IH].
    rewrite existsb_app, E. apply orb_true_r.
  - simpl. rewrite <- app_assoc. simpl.
    destruct Hc as [<-|Hc]; [|now apply IH].
    rewrite existsb_app. simpl. rewrite same_cell_refl, orb_true_r.
    reflexivity.
Qed.

Lemma unique_from_incl (seen l : list cell) (c : cell) :
  In c (unique_from seen l) -> In c l.
Proof.
  revert seen. induction l as [|a l IH]; intros seen; simpl; [tauto|].
  destruct (existsb (same_cell a) seen).
  - intros H. right. now apply (IH seen).
  - intros [<-|H]; [now left|]. right. now apply (IH (a :: seen)).
Qed.

Lemma existsb_rev_true {A} (f : A -> bool) (l : list A) :
  existsb f (rev l) = true -> existsb f l = true.
Proof.
  rewrite !existsb_exists. intros (x & Hx & Hf). exists x.
  split; [now apply in_rev|assumption].
Qed.

(** No value listed by [unique] is one of the values seen before it. *)
Lemma unique_from_distinct (seen l : list cell) :
  Forall (fun b => existsb (same_cell b) seen = false) (unique_from seen l) /\
  ForallOrdPairs (fun a b => same_cell b a = false) (unique_from seen l).
Proof.
  revert seen. induction l as [|c l IH]; intros seen; simpl.
  - split; constructor.
  - destruct (existsb (same_cell c) seen) eqn:E; [apply IH|].
    destruct (IH (c :: seen)) as [Hseen Hpairs]. split.
    + constructor; [assumption|].
      eapply Forall_impl; [|exact Hseen]. simpl. intros b Hb.
      now apply orb_false_iff in Hb.
    + constructor; [|assumption].
      eapply Forall_impl; [|exact Hseen]. simpl. intros b Hb.
      now apply orb_false_iff in Hb.
Qed.

(** X3. The options of the country selection: for [lo <= hi] they are the
    distinct codes of the wide table in the order of its rows; no option
    is listed twice, every code of the wide table is listed and every
    option is the code of a wide row. *)
Theorem countries_are_wide_codes (lo hi : Z) (raw : DataFrame) :
  (forall c, In c (required_columns lo hi) -> In c (columns raw)) ->
  (lo <= hi)%Z ->
  exists long,
    reshape lo hi raw = Ok long /\
    countries long
    = unique (map (fun r => at_label (columns raw) r "Country Code")
                  (rows raw)) /\
    ForallOrdPairs (fun a b => same_cell b a = false) (countries long) /\
    (forall r, In r (rows raw) ->
       existsb (same_cell (at_label (columns raw) r "Country Code"))
               (countries long) = true) /\
    (forall c, In c (countries long) ->
       exists r, In r (rows raw) /\
                 c = at_label (columns raw) r "Country Code").
Proof.
  intros Hcols Hle. exists (long_table lo hi raw).
  split; [now apply reshape_ok|].
  set (codes := map (fun r => at_label (columns raw) r "Country Code")
                    (rows raw)).
  assert (E : countries (long_table lo hi raw) = unique codes).
  { unfold countries, unique, long_table.
    rewrite (range_cons lo) by lia. simpl.
    rewrite map_app, map_map. simpl. fold codes.
    rewrite unique_from_app.
    rewrite (unique_from_covered (rev (unique_from [] codes) ++ []));
      [apply app_nil_r|].
    intros c Hc. apply unique_from_seen.
    apply in_map_iff in Hc as (x & <- & Hx).
    apply in_flat_map in Hx as (y & _ & Hx).
    apply in_map_iff in Hx as (r & <- & Hr). simpl.
    unfold codes. apply in_map_iff. now exists r. }
  rewrite E. split; [reflexivity|]. split; [|split].
  - apply unique_from_distinct.
  - intros r Hr.
    pose proof (unique_from_seen [] codes
                  (at_label (columns raw) r "Country Code")) as H.
    rewrite app_nil_r in H. apply existsb_rev_true, H.
    unfold codes. apply in_map_iff. now exists r.
  - intros c Hc. apply unique_from_incl in Hc.
    unfold codes in Hc. apply in_map_iff in Hc as (r & <- & Hr).
    now exists r.
Qed.

(** ** More on the metrics loop *)

(** X9. The only exception of the metrics loop: it either returns its list
    or raises [TypeError], and it raises exactly when the lookup of some
    selected country, for the first or for the last year, finds a string
    in the GDP column ([try/except] catches [IndexError] only). *)
Theorem compute_metrics_fails_iff_string (df : list (LongRow Z))
    (sel : list string) (from_year to_year : Z) :
  ((exists out, compute_metrics df sel from_year to_year = Ok out) \/
   compute_metrics df sel from_year to_year = Raise TypeError) /\
  (compute_metrics df sel from_year to_year = Raise TypeError <->
   exists country s,
     In country sel /\
     (gdp_iat0 (year_is df from_year) country = Ok (Str s) \/
      gdp_iat0 (year_is df to_year) country = Ok (Str s))).
Proof.
  assert (Hraise : forall e,
    compute_metrics df sel from_year to_year = Raise e ->
    e = TypeError /\
    exists country s,
      In country sel /\
      (gdp_iat0 (year_is df from_year) country = Ok (Str s) \/
       gdp_iat0 (year_is df to_year) country = Ok (Str s))).
  { intros e H. unfold compute_metrics in H.
    apply for_each_raise in H as ([i country] & Hin & Hb).
    apply enumerate_In in Hin.
    destruct (country_metric _ _ country) as [m|e'] eqn:E;
      simpl in Hb; [discriminate|].
    injection Hb as ->. apply country_metric_raise in E as [-> Hs].
    split; [reflexivity|].
    destruct Hs as [(s & Hs)|(s & Hs)]; exists country, s; auto. }
  split.
  - destruct (compute_metrics df sel from_year to_year) as [out|e] eqn:E.
    + left. now exists out.
    + right. destruct (Hraise e eq_refl) as [-> _]. reflexivity.
  - split; [intros H; now apply Hraise in H|].
    intros (country & s & Hin & Hs).
    apply In_enumerate in Hin as (i & Hin).
    assert (Hm : country_metric (year_is df from_year) (year_is df to_year)
                   country = Raise TypeError).
    { apply country_metric_raise. split; [reflexivity|].
      destruct Hs; eauto. }
    destruct (for_each_fails
                (fun '(i, country) =>
                   m <- country_metric (year_is df from_year)
                          (year_is df to_year) country ;;
                   Ok ((i mod 4)%nat, m))
                (enumerate sel) (i, country) TypeError Hin) as (e & He).
    { now rewrite Hm. }
    fold (compute_metrics df sel from_year to_year) in He.
    destruct (Hraise e He) as [-> _]. exact He.
Qed.

(** X10. A selected code that no row of the table carries: its lookups end
    in the [IndexError] branch and its metric shows ['n/a'] for the value
    and for the growth, with [delta_color='off'], whatever else the table
    holds. *)
Theorem unknown_code_metric (df : list (LongRow Z)) (sel : list string)
    (from_year to_year : Z) (out : list (nat * metric)) (i : nat)
    (country : string) :
  (forall x, In x df -> eq_str (Country_Code x) country = false) ->
  compute_metrics df sel from_year to_year = Ok out ->
  nth_error sel i = Some country ->
  nth_error out i
  = Some ((i mod 4)%nat,
          {| label := String.append country " GDP";
             value := n_a; delta := n_a; delta_color := off |}).
Proof.
  intros Hnone Hout Hsel.
  destruct (compute_metrics_nth _ _ _ _ _ _ _ Hout Hsel) as (m & -> & Hm).
  f_equal. f_equal.
  assert (Hlook : forall y, gdp_in_billions (year_is df y) country = Ok nan).
  { intros y. rewrite gdp_in_billions_spec.
    destruct (gdp_iat0_cases df y country) as [[-> _]|(x & Hin & Hrow & _)];
      [reflexivity|].
    unfold is_row in Hrow. rewrite (Hnone x Hin), andb_false_r in Hrow.
    discriminate Hrow. }
  unfold country_metric in Hm. rewrite !Hlook in Hm. simpl in Hm.
  now injection Hm.
Qed.

(** X11. The growth guard tests the first figure only: for a country
    whose first-year figure [s] gives an [s / 1e9] that is neither NaN nor
    zero and whose last-year figure is missing (no row, or a NaN), the
    value is ['n/a'] and the growth is the formatted NaN, with
    [delta_color='normal']. *)
Theorem end_missing_growth_is_nan (df : list (LongRow Z))
    (from_year to_year : Z) (country : string) (s : float) :
  gdp_iat0 (year_is df from_year) country = Ok (Num s) ->
  isnan (truediv s billion) = false -> eq_zero (truediv s billion) = false ->
  gdp_iat0 (year_is df to_year) country = Raise IndexError \/
  gdp_iat0 (year_is df to_year) country = Ok NaN ->
  country_metric (year_is df from_year) (year_is df to_year) country
  = Ok {| label := String.append country " GDP";
          value := n_a;
          delta := fmt_2f_x nan;
          delta_color := normal |}.
Proof.
  intros Hs Hnan Hz He. unfold country_metric.
  rewrite !gdp_in_billions_spec, Hs.
  assert (E : match gdp_iat0 (year_is df to_year) country with
              | Ok NaN => Ok nan
              | Ok (Num x) => Ok (truediv x billion)
              | Ok (Str _) => Raise TypeError
              | Raise _ => Ok nan
              end = Ok nan) by (destruct He as [->| ->]; reflexivity).
  rewrite E. cbn [bind]. rewrite Hnan, Hz, nan_truediv. reflexivity.
Qed.

(** X13. The metric of a country is read from the rows of that country
    only: two tables with the same rows for a code, in the same order,
    give the same metric for it. *)
Theorem metric_depends_on_own_rows (df1 df2 : list (LongRow Z))
    (from_year to_year : Z) (country : string) :
  code_is df1 country = code_is df2 country ->
  country_metric (year_is df1 from_year) (year_is df1 to_year) country
  = country_metric (year_is df2 from_year) (year_is df2 to_year) country.
Proof.
  intros H.
  assert (E : forall y,
    gdp_iat0 (year_is df1 y) country = gdp_iat0 (year_is df2 y) country).
  { intros y. unfold gdp_iat0.
    assert (C : forall df, code_is (year_is df y) country
                           = year_is (code_is df country) y).
    { intros df. unfold code_is, year_is. rewrite !filter_twice.
      apply filter_ext. intros x. apply andb_comm. }
    now rewrite !C, H. }
  unfold country_metric. rewrite !gdp_in_billions_spec, !E. reflexivity.
Qed.


(** ** More on [get_gdp_data] *)

(** X15. The outcomes of [get_gdp_data]: [EmptyDataError] when the file
    has no line after the four skipped ones; otherwise, for records no
    longer than the header, the long table, of [(hi - lo + 1) * |records|]
    rows, when the header holds every required label, and else a
    [KeyError] listing exactly the required labels that the header
    lacks. *)
Theorem get_gdp_data_outcomes (lo hi : Z)
    (to_number : string -> option float)
    (default_na : list string) (world_gdp_csv : list (list string)) :
  match skipn 4 world_gdp_csv with
  | [] =>
      get_gdp_data_between lo hi to_number default_na world_gdp_csv
      = Raise EmptyDataError
  | hdr :: recs =>
      Forall (fun r => (List.length r <= List.length hdr)%nat) recs ->
      ((forall c, In c (required_columns lo hi) -> In c hdr) /\
       exists long,
         get_gdp_data_between lo hi to_number default_na world_gdp_csv
         = Ok long /\
         List.length long
         = (Z.to_nat (hi + 1 - lo) * List.length recs)%nat) \/
      (exists missing,
         get_gdp_data_between lo hi to_number default_na world_gdp_csv
         = Raise (KeyError missing) /\
         missing <> [] /\
         forall c, In c missing <->
                   In c (required_columns lo hi) /\ ~ In c hdr)
  end.
Proof.
  unfold get_gdp_data_between.
  destruct (skipn 4 world_gdp_csv) as [|hdr recs] eqn:Hfile.
  - unfold read_csv. now rewrite Hfile.
  - intros Hlen. rewrite (read_csv_ok _ _ _ _ _ hdr recs Hfile Hlen).
    cbn [bind].
    set (raw := {| columns := hdr; rows := _ |}).
    destruct (filter (fun c => negb (existsb (String.eqb c) hdr))
                     (required_columns lo hi)) as [|m ms] eqn:E.
    + left. pose proof (proj1 (filter_nil_iff _ _) E) as Hall.
      assert (Hcols : forall c, In c (required_columns lo hi) -> In c hdr).
      { intros c Hc. apply existsb_eqb_In. apply Hall in Hc.
        now apply negb_false_iff in Hc. }
      split; [assumption|]. exists (long_table lo hi raw).
      split; [now apply reshape_ok|].
      rewrite long_table_length. unfold raw. simpl. now rewrite length_map.
    + right. exists (m :: ms). split; [|split].
      * unfold reshape, getitem. unfold raw at 1. simpl columns.
        now rewrite E.
      * discriminate.
      * intros c. rewrite <- E, filter_In, negb_true_iff.
        split; intros [Hc Hn]; (split; [assumption|]).
        -- intros Hin. apply existsb_eqb_In in Hin. congruence.
        -- destruct (existsb (String.eqb c) hdr) eqn:Ex; [|reflexivity].
           apply existsb_eqb_In in Ex. contradiction.
Qed.

(** In a numeric column no cell is a string. *)
Lemma numeric_column_cell (to_number : string -> option float)
    (default_na na_values : list string) (recs : list (list string))
    (r : list string) (j : nat) (tok : string) :
  numeric_column to_number default_na na_values recs j = true ->
  In r recs -> nth_error r j = Some tok ->
  match parse_cell to_number default_na na_values true tok with
  | Str _ => False
  | _ => True
  end.
Proof.
  intros Hnum Hr Htok. unfold numeric_column in Hnum.
  rewrite forallb_forall in Hnum. specialize (Hnum r Hr).
  rewrite Htok in Hnum. unfold parse_cell.
  destruct (is_na default_na na_values tok); [exact I|].
  simpl in Hnum. now destruct (to_number tok).
Qed.

(** X16. A number in the file: in a file whose records are no longer than
    its header, when the field of record [i] under the label of a year
    [y] in range is not a missing marker, is read by pandas as the double
    [x], and its column is numeric, the long row of record [i] and year
    [y] has GDP = [x]. *)
Theorem number_is_kept (lo hi : Z) (to_number : string -> option float)
    (default_na : list string) (world_gdp_csv : list (list string))
    (hdr : list string) (recs : list (list string))
    (i j : nat) (r : list string) (y : Z) (tok : string) (x : float) :
  skipn 4 world_gdp_csv = hdr :: recs ->
  Forall (fun r => (List.length r <= List.length hdr)%nat) recs ->
  (forall c, In c (required_columns lo hi) -> In c hdr) ->
  nth_error recs i = Some r -> (lo <= y <= hi)%Z ->
  index_of (str y) hdr = Some j -> nth_error r j = Some tok ->
  is_na default_na [".."%string] tok = false ->
  to_number tok = Some x ->
  numeric_column to_number default_na [".."%string] recs j = true ->
  exists long row,
    get_gdp_data_between lo hi to_number default_na world_gdp_csv = Ok long /\
    nth_error long (Z.to_nat (y - lo) * List.length recs + i) = Some row /\
    Year row = y /\ GDP row = Num x.
Proof.
  intros Hfile Hlen Hcols Hr Hy Hj Htok Hna Hx Hnum.
  unfold get_gdp_data_between.
  rewrite (read_csv_ok _ _ _ _ _ hdr recs Hfile Hlen). cbn [bind].
  set (raw := {| columns := hdr; rows := _ |}).
  exists (long_table lo hi raw),
         (long_row hdr (parse_row to_number default_na [".."%string] recs 0
                                  (List.length hdr) r) y).
  split; [now apply reshape_ok|]. split; [|split].
  - replace (List.length recs) with (List.length (rows raw))
      by (unfold raw; simpl; apply length_map).
    apply (long_table_nth_error lo hi raw); [|assumption].
    unfold raw. simpl. now rewrite nth_error_map, Hr.
  - reflexivity.
  - simpl. rewrite at_label_parse_row, Hj. simpl. rewrite Htok, Hnum.
    unfold parse_cell. now rewrite Hna, Hx.
Qed.

(** X17. A file whose records are no longer than its header and whose
    year columns are numeric (each field a missing marker or a number):
    the GDP column of the long table holds no string, and the metrics
    loop returns its list for every selection and every pair of years. *)
Theorem numeric_file_metrics_total (lo hi : Z)
    (to_number : string -> option float) (default_na : list string)
    (world_gdp_csv : list (list string)) (hdr : list string)
    (recs : list (list string)) :
  skipn 4 world_gdp_csv = hdr :: recs ->
  Forall (fun r => (List.length r <= List.length hdr)%nat) recs ->
  (forall c, In c (required_columns lo hi) -> In c hdr) ->
  (forall y j, (lo <= y <= hi)%Z -> index_of (str y) hdr = Some j ->
     numeric_column to_number default_na [".."%string] recs j = true) ->
  exists long,
    get_gdp_data_between lo hi to_number default_na world_gdp_csv = Ok long /\
    numeric_GDP long = true /\
    forall sel from_year to_year,
      exists out, compute_metrics long sel from_year to_year = Ok out.
Proof.
  intros Hfile Hlen Hcols Hnum.
  unfold get_gdp_data_between.
  rewrite (read_csv_ok _ _ _ _ _ hdr recs Hfile Hlen). cbn [bind].
  set (raw := {| columns := hdr; rows := _ |}).
  exists (long_table lo hi raw).
  split; [now apply reshape_ok|].
  assert (Hlong : numeric_GDP (long_table lo hi raw) = true).
  { unfold numeric_GDP. apply forallb_forall. intros x Hx.
    apply long_table_In in Hx as (row & y & Hrow & Hy & ->).
    unfold raw in Hrow. simpl in Hrow.
    apply in_map_iff in Hrow as (r & <- & Hr). simpl.
    rewrite at_label_parse_row.
    destruct (index_of (str y) hdr) as [j|] eqn:Hj; [|reflexivity].
    simpl. destruct (nth_error r j) as [tok|] eqn:Htok; [|reflexivity].
    rewrite (Hnum y j Hy Hj).
    pose proof (numeric_column_cell _ _ _ _ _ _ _ (Hnum y j Hy Hj) Hr Htok)
      as H.
    now destruct (parse_cell _ _ _ true tok). }
  split; [assumption|]. intros sel from_year to_year.
  now apply compute_metrics_total.
Qed.

(** ** These theorems at sample inputs *)



Lemma lookup_returns_wide_cell_witness :
  exists long,
    reshape 2020 2021 wide_FRA_DEU = Ok long /\
    gdp_iat0 (year_is long 2021) "DEU"
    = Ok (at_label (columns wide_FRA_DEU)
                   [Str "Germany"; Str "DEU"; Num 10%float; Num 25%float]
                   (str 2021)).
Proof.
  apply (lookup_returns_wide_cell 2020 2021 wide_FRA_DEU
           [[Str "France"; Str "FRA"; NaN; Num 2500%float]] []
           [Str "Germany"; Str "DEU"; Num 10%float; Num 25%float]
           2021 "DEU").
  - columns_present.
  - lia.
  - reflexivity.
  - intros p [<-|[]]. reflexivity.
  - reflexivity.
Defined.

Lemma growth_from_wide_row_witness :
  exists long,
    reshape 2020 2021 wide_FRA_DEU = Ok long /\
    country_metric (year_is long 2020) (year_is long 2021) "DEU"
    = Ok {| label := String.append "DEU" " GDP";
            value := fmt_0f_B (truediv 25%float billion);
            delta := fmt_2f_x 2.5%float;
            delta_color := normal |}.
Proof.
  apply (growth_from_wide_row 2020 2021 wide_FRA_DEU
           [[Str "France"; Str "FRA"; NaN; Num 2500%float]] []
           [Str "Germany"; Str "DEU"; Num 10%float; Num 25%float]
           2020 2021 "DEU" 10%float 25%float).
  - columns_present.
  - lia.
  - lia.
  - reflexivity.
  - intros p [<-|[]]. reflexivity.
  - reflexivity.
  - vm_compute. reflexivity.
  - vm_compute. reflexivity.
  - reflexivity.
  - reflexivity.
  - reflexivity.
Defined.

Lemma slider_bounds_are_year_range_witness :
  exists long,
    reshape 2020 2021 sample_frame = Ok long /\
    slider_bounds long = Ok (2020%Z, 2021%Z).
Proof.
  apply (slider_bounds_are_year_range 2020 2021 sample_frame).
  - columns_present.
  - lia.
  - discriminate.
Defined.

Lemma header_only_file_ValueError_witness :
  get_gdp_data_between 2020 2021 int_token [""%string] header_only_csv
  = Ok [] /\
  (gdp_df <- get_gdp_data_between 2020 2021 int_token [""%string]
               header_only_csv ;;
   slider_bounds gdp_df) = Raise ValueError.
Proof.
  apply (header_only_file_ValueError 2020 2021 int_token [""%string]
           header_only_csv sample_header).
  - reflexivity.
  - columns_present.
Defined.

Lemma long_table_ordered_by_year_witness :
  exists long,
    reshape 2020 2021 sample_frame = Ok long /\
    StronglySorted Z.le (map Year long) /\
    Forall (fun y => (2020 <= y <= 2021)%Z) (map Year long).
Proof.
  apply (long_table_ordered_by_year 2020 2021 sample_frame).
  columns_present.
Defined.

Lemma countries_are_wide_codes_witness :
  exists long,
    reshape 2020 2021 sample_frame = Ok long /\
    countries long
    = unique (map (fun r => at_label (columns sample_frame) r "Country Code")
                  (rows sample_frame)) /\
    ForallOrdPairs (fun a b => same_cell b a = false) (countries long) /\
    (forall r, In r (rows sample_frame) ->
       existsb (same_cell (at_label (columns sample_frame) r "Country Code"))
               (countries long) = true) /\
    (forall c, In c (countries long) ->
       exists r, In r (rows sample_frame) /\
                 c = at_label (columns sample_frame) r "Country Code").
Proof.
  apply (countries_are_wide_codes 2020 2021 sample_frame).
  - columns_present.
  - lia.
Defined.

Lemma unknown_code_metric_witness :
  nth_error
    [ (0%nat, {| label := "JPN GDP"; value := n_a; delta := n_a;
                 delta_color := off |}) ] 0
  = Some ((0 mod 4)%nat,
          {| label := String.append "JPN" " GDP";
             value := n_a; delta := n_a; delta_color := off |}).
Proof.
  apply (unknown_code_metric DEU_10_25 ["JPN"%string] 2020 2021
           [ (0%nat, {| label := "JPN GDP"; value := n_a; delta := n_a;
                        delta_color := off |}) ] 0 "JPN").
  - intros x [<-|[<-|[]]]; reflexivity.
  - vm_compute. reflexivity.
  - reflexivity.
Defined.

Lemma end_missing_growth_is_nan_witness :
  country_metric (year_is DEU_end_missing 2020) (year_is DEU_end_missing 2021)
                 "DEU"
  = Ok {| label := String.append "DEU" " GDP";
          value := n_a;
          delta := fmt_2f_x nan;
          delta_color := normal |}.
Proof.
  apply (end_missing_growth_is_nan DEU_end_missing 2020 2021 "DEU"
           3000000000000%float).
  - reflexivity.
  - reflexivity.
  - reflexivity.
  - right. reflexivity.
Defined.

Lemma metric_depends_on_own_rows_witness :
  country_metric (year_is DEU_10_25 2020) (year_is DEU_10_25 2021) "DEU"
  = country_metric
      (year_is (row "France" "FRA" 2020 (Num 7%float) :: DEU_10_25) 2020)
      (year_is (row "France" "FRA" 2020 (Num 7%float) :: DEU_10_25) 2021)
      "DEU".
Proof.
  apply (metric_depends_on_own_rows DEU_10_25
           (row "France" "FRA" 2020 (Num 7%float) :: DEU_10_25)
           2020 2021 "DEU").
  reflexivity.
Defined.


Lemma growth_na_when_start_absent_or_zero_witness :
  exists m,
    country_metric (year_is DEU_zero_start 2020) (year_is DEU_zero_start 2021)
                   "DEU" = Ok m /\
    delta m = n_a /\ delta_color m = off.
Proof.
  apply (growth_na_when_start_absent_or_zero DEU_zero_start 2020 2021 "DEU").
  - reflexivity.
  - right. right. exists 0%float. split; reflexivity.
Defined.

Lemma get_gdp_data_outcomes_witness :
  ((forall c, In c (required_columns 2020 2021) -> In c sample_header) /\
   exists long,
     get_gdp_data_between 2020 2021 int_token [""%string] sample_csv
     = Ok long /\
     List.length long
     = (Z.to_nat (2021 + 1 - 2020)
        * List.length [sample_DEU; sample_FRA])%nat) \/
  (exists missing,
     get_gdp_data_between 2020 2021 int_token [""%string] sample_csv
     = Raise (KeyError missing) /\
     missing <> [] /\
     forall c, In c missing <->
               In c (required_columns 2020 2021) /\ ~ In c sample_header).
Proof.
  apply (get_gdp_data_outcomes 2020 2021 int_token [""%string] sample_csv).
  repeat constructor.
Defined.

Lemma number_is_kept_witness :
  exists long row,
    get_gdp_data_between 2020 2021 int_token [""%string] sample_csv
    = Ok long /\
    nth_error long
      (Z.to_nat (2020 - 2020) * List.length [sample_DEU; sample_FRA] + 0)
    = Some row /\
    Year row = 2020%Z /\ GDP row = Num 3000%float.
Proof.
  apply (number_is_kept 2020 2021 int_token [""%string] sample_csv
           sample_header [sample_DEU; sample_FRA] 0 3 sample_DEU 2020
           "3000" 3000%float).
  - reflexivity.
  - repeat constructor.
  - columns_present.
  - reflexivity.
  - lia.
  - vm_compute. reflexivity.
  - reflexivity.
  - vm_compute. reflexivity.
  - vm_compute. reflexivity.
  - vm_compute. reflexivity.
Defined.

Lemma numeric_file_metrics_total_witness :
  exists long,
    get_gdp_data_between 2020 2021 int_token [""%string] sample_csv
    = Ok long /\
    numeric_GDP long = true /\
    forall sel from_year to_year,
      exists out, compute_metrics long sel from_year to_year = Ok out.
Proof.
  apply (numeric_file_metrics_total 2020 2021 int_token [""%string]
           sample_csv sample_header [sample_DEU; sample_FRA]).
  - reflexivity.
  - repeat constructor.
  - columns_present.
  - intros y j Hy.
    assert (E : y = 2020%Z \/ y = 2021%Z) by lia.
    destruct E as [-> | ->]; vm_compute; intros [= <-]; reflexivity.
Defined.
